(** * atto: the command-line wallet (cmd/atto/main.go)

    A shallow embedding of the dispatcher and of the four operations of
    [main.go], over an explicit log of everything the process does to
    the outside world: writes to the two output streams, reads of the
    seed and of the confirmation, and calls into the atto library. *)

From Stdlib Require Import ZArith List String Ascii Bool Lia.
From Stdlib Require Import DecimalString DecimalPos DecimalZ.
Import ListNotations.

Local Open Scope string_scope.
Local Open Scope list_scope.
Local Open Scope Z_scope.

(** ** math/big: the two conversions main.go relies on *)

Module big.

(** Value of a decimal digit, as [big.Int.SetString] reads it in base 10. *)
Definition digit_value (c : ascii) : option Z :=
  let n := Z.of_N (N_of_ascii c) in
  if (48 <=? n) && (n <=? 57) then Some (n - 48) else None.

(** Scans a run of digits that must reach the end of the string. *)
Fixpoint scan_digits (s : string) (acc : Z) : option Z :=
  match s with
  | EmptyString => Some acc
  | String c r =>
      match digit_value c with
      | Some d => scan_digits r (10 * acc + d)
      | None => None
      end
  end.

(** [big.NewInt(0).SetString(s, 10)]: an optional sign followed by at
    least one decimal digit; the whole string must be consumed.  [None]
    stands for the [ok = false] result. *)
Definition SetString10 (s : string) : option Z :=
  match s with
  | EmptyString => None
  | String c r =>
      if Ascii.eqb c "-" then
        match r with
        | EmptyString => None
        | _ => option_map Z.opp (scan_digits r 0)
        end
      else if Ascii.eqb c "+" then
        match r with
        | EmptyString => None
        | _ => scan_digits r 0
        end
      else scan_digits s 0
  end.

(** The [String] method of [big.Int]: the decimal rendering. *)
Definition String_ (z : Z) : string :=
  NilEmpty.string_of_int (Z.to_int z).

End big.

(** ** Data of package atto, as main.go uses it

    The types of package atto are not declared in main.go.  Of their
    fields main.go reads [Address], [Amount], [Source] and [Balance]; the
    others follow the data model of the specification. *)

(** Go's [error] values: the library's sentinel [atto.ErrAccountNotFound],
    which main.go compares against, and every other error with its text.
    A nil error is [None] in [option error]. *)
Inductive error : Type :=
| ErrAccountNotFound
| Err (msg : string).

Definition PrivateKey := Z.

(** Modelled from the spec: [atto.Account], the public identity: an
    address and the public key it stands for. *)
Module Account.
Record t : Type := mk { PublicKey : Z; Address : string }.
End Account.

(** Modelled from the spec: [atto.Pending], an unclaimed incoming
    transfer: its amount in raw as a decimal string, its sender and the
    reference that identifies it. *)
Module Pending.
Record t : Type := mk { Amount : string; Source : string; Hash : string }.
End Pending.

(** Modelled from the spec: the four block variants of the data model. *)
Inductive Variant : Type := Open | Receive | Send | Change.

(** Modelled from the spec: [atto.Block], a proposed ledger mutation:
    its variant, the reference to the previous frontier (absent only for
    Open), and the signature and the work once it has them. *)
Module Block.
Record t : Type := mk {
  Kind : Variant;
  Account : string;
  Previous : option string;
  Representative : string;
  Balance : string;
  Link : string;
  Signature : option string;
  Work : option string
}.

Definition with_Signature (b : t) (sig : string) : t :=
  mk (Kind b) (Account b) (Previous b) (Representative b) (Balance b)
     (Link b) (Some sig) (Work b).

Definition with_Work (b : t) (w : string) : t :=
  mk (Kind b) (Account b) (Previous b) (Representative b) (Balance b)
     (Link b) (Signature b) (Some w).

(** The block as it was constructed: no signature, no work. *)
Definition bare (b : t) : t :=
  mk (Kind b) (Account b) (Previous b) (Representative b) (Balance b)
     (Link b) None None.
End Block.

(** Modelled from the spec: [atto.AccountInfo], the ledger's snapshot of
    an account: the frontier (none before the account is opened), the
    representative and the balance in raw as a decimal string. *)
Module AccountInfo.
Record t : Type := mk {
  Frontier : option string;
  Representative : string;
  Balance : string;
  Address : string
}.

(** Go's zero value [AccountInfo{}]. *)
Definition zero : t := mk None "" "" "".

Definition with_Balance (i : t) (b : string) : t :=
  mk (Frontier i) (Representative i) b (Address i).
End AccountInfo.

(** ** The log of a run *)

(** Everything the process does to the outside world, in order.  Calls
    that can fail are logged with their result. *)
Inductive Event : Type :=
| Stdout (s : string)
| Stderr (s : string)
| FlagComplaint (arg : string)
| SeedGenerated (r : string + error)
| SeedRead (r : string + error)
| Prompted (amount recipient : string)
| ConfirmationRead (answer : string)
| AccountInfoFetched (a : Account.t) (r : AccountInfo.t + error)
| PendingFetched (a : Account.t) (r : list Pending.t + error)
| Constructed (r : Block.t + error)
| Signed (b : Block.t) (r : string + error)
| WorkFetched (b : Block.t) (r : string + error)
| Submitted (b : Block.t) (r : option error).

Definition Trace := list Event.

(** How a computation ends: it returns, the process exits through
    [os.Exit], or the Go run time panics. *)
Inductive Outcome (A : Type) : Type :=
| Ret (a : A)
| Exit (code : Z)
| Panicked.

Arguments Ret {A} a.
Arguments Exit {A} code.
Arguments Panicked {A}.

(** Exit status the operating system sees; an unrecovered panic ends a
    Go program with status 2. *)
Definition exit_status {A : Type} (o : Outcome A) : Z :=
  match o with
  | Ret _ => 0
  | Exit c => c
  | Panicked => 2
  end.

Definition M (A : Type) : Type := Trace -> Outcome A * Trace.

Definition ret {A : Type} (a : A) : M A := fun tr => (Ret a, tr).

Definition bind {A B : Type} (m : M A) (k : A -> M B) : M B :=
  fun tr =>
    match m tr with
    | (Ret a, tr') => k a tr'
    | (Exit c, tr') => (Exit c, tr')
    | (Panicked, tr') => (Panicked, tr')
    end.

Definition emit (e : Event) : M unit := fun tr => (Ret tt, tr ++ [e]).

(** A call whose answer depends on the outside world: the answer is a
    function of the history so far, and is logged. *)
Definition call {A : Type} (answer : Trace -> A) (log : A -> Event) : M A :=
  fun tr => let a := answer tr in (Ret a, tr ++ [log a]).

Definition os_Exit {A : Type} (code : Z) : M A := fun tr => (Exit code, tr).

Definition panic {A : Type} : M A := fun tr => (Panicked, tr).

Declare Scope go_scope.
Delimit Scope go_scope with go.

Notation "x <- c ;; k" := (bind c (fun x => k))
  (at level 61, c at next level, right associativity) : go_scope.
Notation "c ;;; k" := (bind c (fun _ => k))
  (at level 61, right associativity) : go_scope.
(** [v, err := f(); if err != nil { return err }] *)
Notation "'try' x <- c ;; k" :=
  (bind c (fun r => match r with
                    | inl x => k
                    | inr e => ret (Some e)
                    end))
  (at level 61, x name, c at next level, right associativity) : go_scope.

Local Open Scope go_scope.

Definition nl : string := String "010"%char EmptyString.

(** How the confirmation helper ends the operation when the user
    declines: by leaving the process or by returning an error. *)
Inductive Decline : Type :=
| DeclineExit (code : Z)
| DeclineError (e : error).

(** ** What main.go takes from elsewhere

    main.go is one of two files of the command; the helpers and
    constants of the other file, the atto library and the remote node
    are parameters of the development. *)
Record Env : Type := {
  (* cmd/atto, outside main.go *)
  rawToXNO : Z -> string;
  defaultRepresentative : string;
  stdin_seed : Trace -> string + error;
  confirmation : Trace -> string;
  affirmative : string -> bool;
  decline : Decline;
  (* strconv, as the flag package uses it for a uint flag *)
  ParseUint : string -> option Z;
  (* package atto *)
  random_seed : Trace -> string + error;
  NewPrivateKey : string -> Z -> PrivateKey + error;
  NewAccount : PrivateKey -> Account.t + error;
  error_text : error -> string;
  block_hash : Block.t -> string;
  build_change : AccountInfo.t -> string -> Block.t + error;
  build_send : AccountInfo.t -> string -> string -> Block.t + error;
  signature : Trace -> Block.t -> PrivateKey -> string + error;
  (* the node *)
  node_account_info : Trace -> Account.t -> AccountInfo.t + error;
  node_pending : Trace -> Account.t -> list Pending.t + error;
  node_work : Trace -> Block.t -> string + error;
  node_submit : Trace -> Block.t -> option error
}.

(** Conversion [uint32(x)] of an unsigned integer: the low 32 bits. *)
Definition uint32 (n : Z) : Z := n mod 4294967296.

(** The package-level flags and the positional arguments, once
    [flag.Parse] has run. *)
Record CommandLine : Type := mkCommandLine {
  vFlag : bool;
  yFlag : bool;
  accountIndexFlag : Z;
  args : list string
}.

(** [flag.NArg()] and [flag.Arg(i)]; the latter is empty out of range. *)
Definition NArg (cl : CommandLine) : Z := Z.of_nat (List.length (args cl)).
Definition Arg (cl : CommandLine) (i : nat) : string := nth i (args cl) "".

(** [s[:1]] on a Go string: the first byte, and a run-time panic when
    the string is empty. *)
Definition first_byte (s : string) : M string :=
  match s with
  | EmptyString => panic
  | String c _ => ret (String c EmptyString)
  end.

Definition usage : string :=
"Usage:
	atto -v
	atto n[ew]
	atto [-a ACCOUNT_INDEX] a[ddress]
	atto [-a ACCOUNT_INDEX] b[alance]
	atto [-a ACCOUNT_INDEX] r[epresentative] REPRESENTATIVE
	atto [-a ACCOUNT_INDEX] [-y] s[end] AMOUNT RECEIVER

If the -v flag is provided, atto will print its version number.

The new subcommand generates a new seed, which can later be used with
the other subcommands.

The address, balance, representative and send subcommands expect a seed
as the first line of their standard input. Showing the first address of
a newly generated key could work like this:
atto new | tee seed.txt | atto address

The send subcommand also expects manual confirmation of the transaction,
unless the -y flag is given.

The address subcommand displays addresses for a seed, the balance
subcommand receives pending sends and shows the balance of an account,
the representative subcommand changes the account's representative and
the send subcommand sends funds to an address.

ACCOUNT_INDEX is an optional parameter, which must be a number between 0
and 4,294,967,295. It allows you to use multiple accounts derived from
the same seed. By default the account with index 0 is chosen.
".

(** ** The flag package, for the three flags main.go declares *)

Module flag.

(** [strconv.ParseBool], which the flag package applies to the value
    of a boolean flag written [-name=value]. *)
Definition ParseBool (s : string) : option bool :=
  if existsb (String.eqb s) ["1"; "t"; "T"; "TRUE"; "true"; "True"]
  then Some true
  else if existsb (String.eqb s) ["0"; "f"; "F"; "FALSE"; "false"; "False"]
  then Some false
  else None.

(** Splits at the first [=]. *)
Fixpoint cut (s : string) : string * option string :=
  match s with
  | EmptyString => (EmptyString, None)
  | String c r =>
      if Ascii.eqb c "=" then (EmptyString, Some r)
      else let (n, v) := cut r in (String c n, v)
  end.

(** The name and the optional value of a flag; an [=] cannot be the
    first byte of the name. *)
Definition name_value (name : string) : string * option string :=
  match name with
  | EmptyString => (EmptyString, None)
  | String c r => let (n, v) := cut r in (String c n, v)
  end.

Inductive Result : Type :=
| Done (cl : CommandLine)
| Help
| Bad (arg : string).

Definition set_v (cl : CommandLine) (b : bool) : CommandLine :=
  mkCommandLine b (yFlag cl) (accountIndexFlag cl) (args cl).
Definition set_y (cl : CommandLine) (b : bool) : CommandLine :=
  mkCommandLine (vFlag cl) b (accountIndexFlag cl) (args cl).
Definition set_a (cl : CommandLine) (n : Z) : CommandLine :=
  mkCommandLine (vFlag cl) (yFlag cl) n (args cl).
Definition set_args (cl : CommandLine) (l : list string) : CommandLine :=
  mkCommandLine (vFlag cl) (yFlag cl) (accountIndexFlag cl) l.

(** The loop of [FlagSet.Parse] over [parseOne]: flags are read until
    the first argument that is not one (shorter than two bytes or not
    starting with a dash) or until the terminator [--]; [-a] takes its
    value from [-a=N] or from the next argument, [-y] and [-v] take
    one only from [-y=B]; an undeclared name is an error, except for
    [-h] and [-help]. *)
Fixpoint scan (parse_uint : string -> option Z)
         (argv : list string) (cl : CommandLine) : Result :=
  match argv with
  | [] => Done (set_args cl [])
  | s :: rest =>
      match s with
      | String c0 (String c1 r1 as s1) =>
          if negb (Ascii.eqb c0 "-") then Done (set_args cl argv)
          else if Ascii.eqb c1 "-" && String.eqb r1 "" then Done (set_args cl rest)
          else
            let name := if Ascii.eqb c1 "-" then r1 else s1 in
            match name with
            | EmptyString => Bad s
            | String c _ =>
                if Ascii.eqb c "-" || Ascii.eqb c "=" then Bad s
                else
                  let (name, value) := name_value name in
                  if String.eqb name "a" then
                    match value with
                    | Some v =>
                        match parse_uint v with
                        | Some n => scan parse_uint rest (set_a cl n)
                        | None => Bad s
                        end
                    | None =>
                        match rest with
                        | v :: rest' =>
                            match parse_uint v with
                            | Some n => scan parse_uint rest' (set_a cl n)
                            | None => Bad s
                            end
                        | [] => Bad s
                        end
                    end
                  else if String.eqb name "y" then
                    match value with
                    | Some v =>
                        match ParseBool v with
                        | Some b => scan parse_uint rest (set_y cl b)
                        | None => Bad s
                        end
                    | None => scan parse_uint rest (set_y cl true)
                    end
                  else if String.eqb name "v" then
                    match value with
                    | Some v =>
                        match ParseBool v with
                        | Some b => scan parse_uint rest (set_v cl b)
                        | None => Bad s
                        end
                    | None => scan parse_uint rest (set_v cl true)
                    end
                  else if String.eqb name "help" || String.eqb name "h"
                  then Help
                  else Bad s
            end
      | _ => Done (set_args cl argv)
      end
  end.

(** [flag.Parse()] on the default flag set, whose error handling is
    [ExitOnError]; [argv] is [os.Args[1:]].  A rejected command line is
    reported with the usage text and ends the process with status 2, a
    request for help ends it with status 0. *)
Definition Parse (parse_uint : string -> option Z) (argv : list string)
  : M CommandLine :=
  match scan parse_uint argv (mkCommandLine false false 0 []) with
  | Done cl => ret cl
  | Help => emit (Stderr usage) ;;; os_Exit 0
  | Bad s => emit (FlagComplaint s) ;;; emit (Stderr usage) ;;; os_Exit 2
  end.

End flag.

Notation "'attempt' x <- c ;; k" :=
  (bind c (fun r => match r with
                    | inl x => k
                    | inr e => ret (inr e)
                    end))
  (at level 61, x name, c at next level, right associativity) : go_scope.

Section Wallet.

Variable env : Env.

(** ** Package atto and the helpers of cmd/atto *)

(** Modelled from the spec: [atto.GenerateSeed] of package atto, a fresh
    seed or an error. *)
Definition GenerateSeed : M (string + error) :=
  call (random_seed env) SeedGenerated.

(** Modelled from the spec: [getSeed] of cmd/atto, which is not part of
    main.go: the seed on the first line of standard input, or an error. *)
Definition getSeed : M (string + error) :=
  call (stdin_seed env) SeedRead.

(** Modelled from the spec: [letUserVerifySend] of cmd/atto, which is
    not part of main.go.  Unless the send is forced, the amount and the
    recipient are presented to the user and an answer is read from the
    confirmation channel; anything but an affirmative answer aborts. *)
Definition letUserVerifySend (cl : CommandLine) (amount recipient : string)
  : M (option error) :=
  if yFlag cl then ret None
  else
    emit (Prompted amount recipient) ;;;
    answer <- call (confirmation env) ConfirmationRead ;;
    if affirmative env answer then ret None
    else match decline env with
         | DeclineExit code => os_Exit code
         | DeclineError e => ret (Some e)
         end.

(** Modelled from the spec: [Account.FetchAccountInfo] of package atto.
    The node answers with the account's state or with an error; with
    an error the state returned is Go's zero value, which has no
    frontier. *)
Definition FetchAccountInfo (account : Account.t)
  : M (AccountInfo.t * option error) :=
  r <- call (fun h => node_account_info env h account)
            (AccountInfoFetched account) ;;
  ret (match r with
       | inl info => (info, None)
       | inr e => (AccountInfo.zero, Some e)
       end).

(** Modelled from the spec: [Account.FetchPending] of package atto: the
    pending transfers as the node lists them, or an error. *)
Definition FetchPending (account : Account.t)
  : M (list Pending.t + error) :=
  call (fun h => node_pending env h account) (PendingFetched account).

(** Modelled from the spec: [Account.FirstReceive] of package atto.
    Builds the Open block for a pending transfer, bound to the given
    representative and with no predecessor, together with the state
    the account has once the block is applied: the balance is the
    amount received and the frontier refers to the new block. *)
Definition FirstReceive (account : Account.t) (pending : Pending.t)
           (representative : string)
  : M (AccountInfo.t * Block.t + error) :=
  let block :=
    Block.mk Open (Account.Address account) None representative
             (Pending.Amount pending) (Pending.Hash pending) None None in
  let info :=
    AccountInfo.mk (Some (block_hash env block)) representative
                   (Block.Balance block) (Account.Address account) in
  emit (Constructed (inl block)) ;;;
  ret (inl (info, block)).

(** Modelled from the spec: [AccountInfo.Receive] of package atto.
    Builds a Receive block chained to the current frontier; the state
    is replaced by the block's post-state: the balance grows by the
    amount received and the frontier refers to the new block. *)
Definition info_Receive (info : AccountInfo.t) (pending : Pending.t)
  : M (AccountInfo.t * Block.t + error) :=
  match big.SetString10 (AccountInfo.Balance info),
        big.SetString10 (Pending.Amount pending) with
  | Some balance, Some amount =>
      let block :=
        Block.mk Receive (AccountInfo.Address info)
                 (AccountInfo.Frontier info)
                 (AccountInfo.Representative info)
                 (big.String_ (balance + amount))
                 (Pending.Hash pending) None None in
      let info' :=
        AccountInfo.mk (Some (block_hash env block))
                       (AccountInfo.Representative info)
                       (Block.Balance block) (AccountInfo.Address info) in
      emit (Constructed (inl block)) ;;;
      ret (inl (info', block))
  | _, _ =>
      let e := Err "cannot parse balance or amount" in
      emit (Constructed (inr e)) ;;;
      ret (inr e)
  end.

(** Modelled from the spec: [AccountInfo.Change] and [AccountInfo.Send]
    of package atto: the block, or the constructor's validation error. *)
Definition info_Change (info : AccountInfo.t) (representative : string)
  : M (Block.t + error) :=
  let r := build_change env info representative in
  emit (Constructed r) ;;; ret r.

Definition info_Send (info : AccountInfo.t) (amount recipient : string)
  : M (Block.t + error) :=
  let r := build_send env info amount recipient in
  emit (Constructed r) ;;; ret r.

(** Modelled from the spec: [Block.Sign] of package atto: on success
    the block carries the signature. *)
Definition block_Sign (block : Block.t) (privateKey : PrivateKey)
  : M (Block.t + error) :=
  r <- call (fun h => signature env h block privateKey) (Signed block) ;;
  ret (match r with
       | inl sig => inl (Block.with_Signature block sig)
       | inr e => inr e
       end).

(** Modelled from the spec: [Block.FetchWork] of package atto: on
    success the block carries the work. *)
Definition block_FetchWork (block : Block.t) : M (Block.t + error) :=
  r <- call (fun h => node_work env h block) (WorkFetched block) ;;
  ret (match r with
       | inl w => inl (Block.with_Work block w)
       | inr e => inr e
       end).

(** Modelled from the spec: [Block.Submit] of package atto: the node
    accepts the block or answers with an error. *)
Definition block_Submit (block : Block.t) : M (option error) :=
  call (fun h => node_submit env h block) (Submitted block).

(** ** main.go *)

Definition printNewSeed : M (option error) :=
  r <- GenerateSeed ;;
  match r with
  | inl seed => emit (Stdout (seed ++ nl)%string) ;;; ret None
  | inr err => ret (Some err)
  end.

Definition printAddress (cl : CommandLine) : M (option error) :=
  try seed <- getSeed ;;
  try privateKey <- ret (NewPrivateKey env seed (uint32 (accountIndexFlag cl))) ;;
  r <- ret (NewAccount env privateKey) ;;
  match r with
  | inl account => emit (Stdout (Account.Address account ++ nl)%string) ;;; ret None
  | inr err => ret (Some err)
  end.

(** The [for _, pending := range pendings] loop of [printBalance],
    lines 147 to 175, over the two variables it updates.  [inr] is a
    [return err] from inside the loop. *)
Fixpoint receivePendings (account : Account.t) (privateKey : PrivateKey)
         (pendings : list Pending.t)
         (firstReceive : bool) (info : AccountInfo.t)
  : M (AccountInfo.t + error) :=
  match pendings with
  | [] => ret (inl info)
  | pending :: rest =>
      match big.SetString10 (Pending.Amount pending) with
      | None =>
          ret (inr (Err ("cannot parse '" ++ Pending.Amount pending
                         ++ "' as an integer")%string))
      | Some amount =>
          emit (Stderr ("Creating receive block for " ++ rawToXNO env amount
                        ++ " from " ++ Pending.Source pending ++ "... ")%string) ;;;
          attempt built <-
            (if firstReceive then
               emit (Stderr "opening account... ") ;;;
               FirstReceive account pending (defaultRepresentative env)
             else info_Receive info pending) ;;
          let firstReceive := if firstReceive then false else firstReceive in
          let (info, block) := built in
          attempt block <- block_Sign block privateKey ;;
          attempt block <- block_FetchWork block ;;
          err <- block_Submit block ;;
          match err with
          | Some err => ret (inr err)
          | None =>
              emit (Stderr ("done" ++ nl)%string) ;;;
              receivePendings account privateKey rest firstReceive info
          end
      end
  end.

(** [printBalance] from the pending query on, lines 143 to 181. *)
Definition drainPending (account : Account.t) (privateKey : PrivateKey)
           (firstReceive : bool) (info : AccountInfo.t)
  : M (option error) :=
  try pendings <- FetchPending account ;;
  try info <- receivePendings account privateKey pendings firstReceive info ;;
  match big.SetString10 (AccountInfo.Balance info) with
  | None =>
      ret (Some (Err ("cannot parse '" ++ AccountInfo.Balance info
                      ++ "' as an integer")%string))
  | Some newBalance =>
      emit (Stdout (rawToXNO env newBalance ++ nl)%string) ;;;
      ret None
  end.

(** [printBalance], lines 120 to 142, continued by [drainPending]. *)
Definition printBalance (cl : CommandLine) : M (option error) :=
  try seed <- getSeed ;;
  try privateKey <- ret (NewPrivateKey env seed (uint32 (accountIndexFlag cl))) ;;
  try account <- ret (NewAccount env privateKey) ;;
  let firstReceive := false in
  r <- FetchAccountInfo account ;;
  let (info, err) := r in
  match err with
  | Some ErrAccountNotFound =>
      let info := AccountInfo.with_Balance info "0" in
      let firstReceive := true in
      drainPending account privateKey firstReceive info
  | Some err => ret (Some err)
  | None => drainPending account privateKey firstReceive info
  end.

Definition changeRepresentative (cl : CommandLine) : M (option error) :=
  let representative := Arg cl 1 in
  try seed <- getSeed ;;
  try privateKey <- ret (NewPrivateKey env seed (uint32 (accountIndexFlag cl))) ;;
  try account <- ret (NewAccount env privateKey) ;;
  r <- FetchAccountInfo account ;;
  let (info, err) := r in
  match err with
  | Some err => ret (Some err)
  | None =>
      emit (Stderr "Creating change block... ") ;;;
      try block <- info_Change info representative ;;
      try block <- block_Sign block privateKey ;;
      try block <- block_FetchWork block ;;
      err <- block_Submit block ;;
      match err with
      | Some err => ret (Some err)
      | None => emit (Stderr ("done" ++ nl)%string) ;;; ret None
      end
  end.

Definition sendFunds (cl : CommandLine) : M (option error) :=
  let amount := Arg cl 1 in
  let recipient := Arg cl 2 in
  try seed <- getSeed ;;
  try privateKey <- ret (NewPrivateKey env seed (uint32 (accountIndexFlag cl))) ;;
  try account <- ret (NewAccount env privateKey) ;;
  err <- letUserVerifySend cl amount recipient ;;
  match err with
  | Some err => ret (Some err)
  | None =>
      r <- FetchAccountInfo account ;;
      let (info, err) := r in
      match err with
      | Some err => ret (Some err)
      | None =>
          emit (Stderr "Creating send block... ") ;;;
          try block <- info_Send info amount recipient ;;
          try block <- block_Sign block privateKey ;;
          try block <- block_FetchWork block ;;
          err <- block_Submit block ;;
          match err with
          | Some err => ret (Some err)
          | None => emit (Stderr ("done" ++ nl)%string) ;;; ret None
          end
      end
  end.

(** [init], after which the command line is known to name a command
    with the right number of arguments. *)
Definition init (argv : list string) : M CommandLine :=
  cl <- flag.Parse (ParseUint env) argv ;;
  if vFlag cl then
    emit (Stdout ("1.3.0" ++ nl)%string) ;;; os_Exit 0
  else if NArg cl <? 1 then
    emit (Stderr usage) ;;; os_Exit 1
  else
    c <- first_byte (Arg cl 0) ;;
    let ok :=
      if String.eqb c "n" || String.eqb c "a" || String.eqb c "b"
      then NArg cl =? 1
      else if String.eqb c "r" then NArg cl =? 2
      else if String.eqb c "s" then NArg cl =? 3
      else false in
    if negb ok then emit (Stderr usage) ;;; os_Exit 1
    else ret cl.

(** The end of [main]: an error is printed and becomes status 2. *)
Definition report (err : option error) : M unit :=
  match err with
  | Some e =>
      emit (Stderr ("Error: " ++ error_text env e ++ nl)%string) ;;;
      os_Exit 2
  | None => ret tt
  end.

Definition main (cl : CommandLine) : M unit :=
  c <- first_byte (Arg cl 0) ;;
  err <- (if String.eqb c "n" then printNewSeed
          else if String.eqb c "a" then printAddress cl
          else if String.eqb c "b" then printBalance cl
          else if String.eqb c "r" then changeRepresentative cl
          else if String.eqb c "s" then sendFunds cl
          else ret None) ;;
  report err.

(** One run of the program: [init], then [main]. *)
Definition atto (argv : list string) : M unit :=
  cl <- init argv ;;
  main cl.

End Wallet.

(** ** Reading the log *)

Fixpoint pick {A : Type} (f : Event -> option A) (tr : Trace) : list A :=
  match tr with
  | [] => []
  | e :: rest =>
      match f e with
      | Some a => a :: pick f rest
      | None => pick f rest
      end
  end.

(** Blocks whose submission the node accepted. *)
Definition submitted : Trace -> list Block.t :=
  pick (fun e => match e with Submitted b None => Some b | _ => None end).

(** Blocks handed to the submit call, accepted or not. *)
Definition submit_calls : Trace -> list Block.t :=
  pick (fun e => match e with Submitted b _ => Some b | _ => None end).

(** Blocks a constructor of the library returned. *)
Definition constructed : Trace -> list Block.t :=
  pick (fun e => match e with Constructed (inl b) => Some b | _ => None end).

Definition work_calls : Trace -> list Block.t :=
  pick (fun e => match e with WorkFetched b _ => Some b | _ => None end).

(** The text written to the primary output and to the diagnostic stream. *)
Definition stdout (tr : Trace) : string :=
  String.concat "" (pick (fun e => match e with Stdout s => Some s | _ => None end) tr).

Definition stderr (tr : Trace) : string :=
  String.concat "" (pick (fun e => match e with Stderr s => Some s | _ => None end) tr).

Definition confirmations : Trace -> list string :=
  pick (fun e => match e with ConfirmationRead a => Some a | _ => None end).

(** Calls into the Ledger Client: queries, block construction, signing,
    proof-of-work and submission. *)
Definition is_ledger_call (e : Event) : bool :=
  match e with
  | AccountInfoFetched _ _ | PendingFetched _ _ | Constructed _
  | Signed _ _ | WorkFetched _ _ | Submitted _ _ => true
  | _ => false
  end.

Definition ledger_calls (tr : Trace) : list Event := filter is_ledger_call tr.

(** Calls that reach the remote node. *)
Definition is_network_call (e : Event) : bool :=
  match e with
  | AccountInfoFetched _ _ | PendingFetched _ _
  | WorkFetched _ _ | Submitted _ _ => true
  | _ => false
  end.

Definition network_calls (tr : Trace) : list Event := filter is_network_call tr.

(** ** A stub of the outside world, for running the model *)

(** A rendering of raw amounts with a display unit of 10^27 raw and
    three decimals, as in the scenario of the specification. *)
Definition sample_rawToXNO (raw : Z) : string :=
  let unit := 1000000000000000000000000000 in
  let frac := (raw mod unit) / 1000000000000000000000000 in
  let pad := if frac <? 10 then "00" else if frac <? 100 then "0" else "" in
  (big.String_ (raw / unit) ++ "." ++ pad ++ big.String_ frac)%string.

(** Unsigned decimal numbers; the prefixed forms that Go also reads are
    not used in the examples. *)
Definition sample_ParseUint (s : string) : option Z :=
  match s with
  | EmptyString => None
  | _ => big.scan_digits s 0
  end.

Definition sample_error_text (e : error) : string :=
  match e with
  | ErrAccountNotFound => "account has not yet been opened"
  | Err msg => msg
  end.

Definition sample_hash (b : Block.t) : string :=
  ("#" ++ Block.Link b ++ "/" ++ Block.Balance b)%string.

(** The stub: the account state and the pending list the node reports,
    the work request that fails (none when [None]), and the answer on
    the confirmation channel. *)
Definition stub (state : AccountInfo.t + error) (pendings : list Pending.t)
           (failing_work : option nat) (answer : string) : Env :=
  {| rawToXNO := sample_rawToXNO;
     defaultRepresentative := "nano_rep";
     stdin_seed := fun _ => inl "5EED";
     confirmation := fun _ => answer;
     affirmative := fun a => String.eqb a "y" || String.eqb a "Y";
     decline := DeclineExit 0;
     ParseUint := sample_ParseUint;
     random_seed := fun _ => inl "D420";
     NewPrivateKey := fun _ index => inl (index + 1);
     NewAccount := fun key => inl (Account.mk key "nano_me");
     error_text := sample_error_text;
     block_hash := sample_hash;
     build_change := fun info rep =>
       inl (Block.mk Change (AccountInfo.Address info) (AccountInfo.Frontier info)
                     rep (AccountInfo.Balance info) "" None None);
     build_send := fun info amount recipient =>
       inl (Block.mk Send (AccountInfo.Address info) (AccountInfo.Frontier info)
                     (AccountInfo.Representative info) (AccountInfo.Balance info)
                     recipient None None);
     signature := fun _ _ _ => inl "sig";
     node_account_info := fun _ _ => state;
     node_pending := fun _ _ => inl pendings;
     node_work := fun h _ =>
       match failing_work with
       | Some k => if Nat.eqb (S (List.length (work_calls h))) k
                   then inr (Err "no work") else inl "work"
       | None => inl "work"
       end;
     node_submit := fun _ _ => None |}.

Definition X_transfer : Pending.t :=
  Pending.mk "1025000000000000000000000000" "X" "hx".
Definition Y_transfer : Pending.t :=
  Pending.mk "100000000000000000000000000" "Y" "hy".

Definition balance_line : CommandLine := mkCommandLine false false 0 ["balance"].

(** The state of an account that was opened before, with 5 raw. *)
Definition opened_account : AccountInfo.t :=
  AccountInfo.mk (Some "f0") "nano_rep" "5" "nano_me".

(** ** Vocabulary of the statements *)

(** The accumulated value of a digit list, mirroring [big.scan_digits];
    it links the parser to the decimal numbers of the standard library. *)
Fixpoint uint_value (d : Decimal.uint) (acc : Z) : Z :=
  match d with
  | Decimal.Nil => acc
  | Decimal.D0 l => uint_value l (10 * acc + 0)
  | Decimal.D1 l => uint_value l (10 * acc + 1)
  | Decimal.D2 l => uint_value l (10 * acc + 2)
  | Decimal.D3 l => uint_value l (10 * acc + 3)
  | Decimal.D4 l => uint_value l (10 * acc + 4)
  | Decimal.D5 l => uint_value l (10 * acc + 5)
  | Decimal.D6 l => uint_value l (10 * acc + 6)
  | Decimal.D7 l => uint_value l (10 * acc + 7)
  | Decimal.D8 l => uint_value l (10 * acc + 8)
  | Decimal.D9 l => uint_value l (10 * acc + 9)
  end.

(** *** A well-behaved outside world *)

(** The seed is read and yields the key and the account. *)
Definition derives (env : Env) (cl : CommandLine)
           (key : PrivateKey) (account : Account.t) : Prop :=
  exists seed,
    (forall h, stdin_seed env h = inl seed) /\
    NewPrivateKey env seed (uint32 (accountIndexFlag cl)) = inl key /\
    NewAccount env key = inl account.

(** Signing, the work request and the submission never fail. *)
Definition signs (env : Env) (key : PrivateKey) : Prop :=
  forall h b, exists sig, signature env h b key = inl sig.

Definition works (env : Env) : Prop :=
  forall h b, exists w, node_work env h b = inl w.

Definition accepts (env : Env) : Prop :=
  forall h b, node_submit env h b = None.

(** *** What a drain submits *)

(** The amounts of a list of pending transfers, as integers. *)
Definition amounts_of (ps : list Pending.t) (amounts : list Z) : Prop :=
  Forall2 (fun p a => big.SetString10 (Pending.Amount p) = Some a) ps amounts.

Definition total (amounts : list Z) : Z := fold_right Z.add 0 amounts.

(** Block [i] claims transfer [i]. *)
Definition claims (bs : list Block.t) (ps : list Pending.t) : Prop :=
  Forall2 (fun b p => Block.Link b = Pending.Hash p) bs ps.

(** Each block names as its predecessor the frontier that results from
    the block before it; the first one names [frontier]. *)
Fixpoint chained (env : Env) (frontier : option string) (bs : list Block.t)
  : Prop :=
  match bs with
  | [] => True
  | b :: rest =>
      Block.Previous b = frontier /\
      chained env (Some (block_hash env (Block.bare b))) rest
  end.

(** *** Where an Open block can appear *)

Definition is_open (b : Block.t) : bool :=
  match Block.Kind b with
  | Open => true
  | _ => false
  end.

Definition all_receives (bs : list Block.t) : Prop :=
  Forall (fun b => Block.Kind b = Receive) bs.

(** With [firstReceive] set, only the first block constructed can be
    something else than a Receive block; without it, none can. *)
Definition opens_first (firstReceive : bool) (bs : list Block.t) : Prop :=
  if firstReceive
  then match bs with
       | [] => True
       | _ :: rest => all_receives rest
       end
  else all_receives bs.

(** *** A failing work request *)

(** The node produces work for the first [n] requests of the run and
    fails the next one with [e]. *)
Definition work_fails_after (env : Env) (n : nat) (e : error) : Prop :=
  (forall h b, (List.length (work_calls h) < n)%nat ->
               exists w, node_work env h b = inl w) /\
  (forall h b, List.length (work_calls h) = n -> node_work env h b = inr e).

(** *** The order of signing, work and submission *)

(** Where a block stands on its way to the node. *)
Inductive Phase : Type :=
| Idle
| HasSignature (b : Block.t)
| HasWork (b : Block.t)
| Aborted.

Definition is_pipeline_event (e : Event) : bool :=
  match e with
  | Signed _ _ | WorkFetched _ _ | Submitted _ _ => true
  | _ => false
  end.

(** The discipline of the log: a block is signed, then given work, then
    submitted, with nothing in between; a failed signature or a failed
    work request is the end of the log. *)
Inductive obeys : Trace -> Phase -> Prop :=
| obeys_start : obeys [] Idle
| obeys_other tr e :
    obeys tr Idle -> is_pipeline_event e = false -> obeys (tr ++ [e]) Idle
| obeys_signed tr b sig :
    obeys tr Idle ->
    obeys (tr ++ [Signed b (inl sig)]) (HasSignature (Block.with_Signature b sig))
| obeys_sign_failed tr b e :
    obeys tr Idle -> obeys (tr ++ [Signed b (inr e)]) Aborted
| obeys_work tr b w :
    obeys tr (HasSignature b) ->
    obeys (tr ++ [WorkFetched b (inl w)]) (HasWork (Block.with_Work b w))
| obeys_work_failed tr b e :
    obeys tr (HasSignature b) -> obeys (tr ++ [WorkFetched b (inr e)]) Aborted
| obeys_submit tr b r :
    obeys tr (HasWork b) -> obeys (tr ++ [Submitted b r]) Idle.

(** Every submit call comes right after a successful signature and a
    successful work request for the same block, which then carries both;
    a failed signature or work request is the last event of the log. *)
Definition submit_guarded (tr : Trace) : Prop :=
  (forall pre b r post,
      tr = pre ++ Submitted b r :: post ->
      exists pre' b0 sig w,
        pre = pre' ++ [Signed b0 (inl sig);
                       WorkFetched (Block.with_Signature b0 sig) (inl w)] /\
        b = Block.with_Work (Block.with_Signature b0 sig) w /\
        Block.Signature b = Some sig /\ Block.Work b = Some w) /\
  (forall pre b e post, tr = pre ++ Signed b (inr e) :: post -> post = []) /\
  (forall pre b e post, tr = pre ++ WorkFetched b (inr e) :: post -> post = []).

(** *** Dispatch *)

(** The check of [init] on the command letter and the number of
    positional arguments. *)
Definition accepted_command (c : ascii) (n : nat) : bool :=
  if Ascii.eqb c "n" || Ascii.eqb c "a" || Ascii.eqb c "b" then Nat.eqb n 1
  else if Ascii.eqb c "r" then Nat.eqb n 2
  else if Ascii.eqb c "s" then Nat.eqb n 3
  else false.

(** The operation [main] runs for a command letter. *)
Definition operation (env : Env) (cl : CommandLine) (c : ascii)
  : M (option error) :=
  if Ascii.eqb c "n" then printNewSeed env
  else if Ascii.eqb c "a" then printAddress env cl
  else if Ascii.eqb c "b" then printBalance env cl
  else if Ascii.eqb c "r" then changeRepresentative env cl
  else if Ascii.eqb c "s" then sendFunds env cl
  else ret None.

(** *** More readings of the log *)

(** The writes to the primary output, one by one. *)
Definition stdout_writes : Trace -> list string :=
  pick (fun e => match e with Stdout s => Some s | _ => None end).

(** The answers to the pending query, and the lists among them. *)
Definition pending_fetches : Trace -> list (list Pending.t + error) :=
  pick (fun e => match e with PendingFetched _ r => Some r | _ => None end).

Definition pending_lists (tr : Trace) : list (list Pending.t) :=
  flat_map (fun r => match r with inl ps => [ps] | inr _ => [] end)
           (pending_fetches tr).

(** The answers of the block constructors, failures included. *)
Definition constructor_calls : Trace -> list (Block.t + error) :=
  pick (fun e => match e with Constructed r => Some r | _ => None end).

(** The closing word of the narration, once per occurrence. *)
Definition done_lines : Trace -> list unit :=
  pick (fun e => match e with
                 | Stderr s => if String.eqb s ("done" ++ nl) then Some tt else None
                 | _ => None
                 end).

Definition seed_reads : Trace -> list (string + error) :=
  pick (fun e => match e with SeedRead r => Some r | _ => None end).

(** The key and the account an operation works with, from the answer to
    the seed read: lines 105 to 117 of [printAddress], repeated at the
    head of the three other operations. *)
Definition deriveContext (env : Env) (cl : CommandLine) (read : string + error)
  : PrivateKey * Account.t + error :=
  match read with
  | inr e => inr e
  | inl seed =>
      match NewPrivateKey env seed (uint32 (accountIndexFlag cl)) with
      | inr e => inr e
      | inl key =>
          match NewAccount env key with
          | inr e => inr e
          | inl account => inl (key, account)
          end
      end
  end.

(** The stub with another answer to the seed read. *)
Definition stub_with_seed (read : string + error) (env : Env) : Env :=
  {| rawToXNO := rawToXNO env;
     defaultRepresentative := defaultRepresentative env;
     stdin_seed := fun _ => read;
     confirmation := confirmation env;
     affirmative := affirmative env;
     decline := decline env;
     ParseUint := ParseUint env;
     random_seed := random_seed env;
     NewPrivateKey := NewPrivateKey env;
     NewAccount := NewAccount env;
     error_text := error_text env;
     block_hash := block_hash env;
     build_change := build_change env;
     build_send := build_send env;
     signature := signature env;
     node_account_info := node_account_info env;
     node_pending := node_pending env;
     node_work := node_work env;
     node_submit := node_submit env |}.

(** What the confirmation helper showed to the user. *)
Definition prompts : Trace -> list (string * string) :=
  pick (fun e => match e with Prompted a r => Some (a, r) | _ => None end).

(** The account states the node returned. *)
Definition account_infos : Trace -> list AccountInfo.t :=
  pick (fun e => match e with
                 | AccountInfoFetched _ (inl i) => Some i
                 | _ => None
                 end).

(** The queries for the account state, answered or not. *)
Definition info_fetches : Trace -> list Account.t :=
  pick (fun e => match e with AccountInfoFetched a _ => Some a | _ => None end).



(** A run that handles one block at most: the account state is asked
    for once at most, the pending list never, one constructor is called
    at most, and the only block that can reach the node is the one that
    was constructed, with a signature and work added. *)
Definition one_block_at_most (tr : Trace) : Prop :=
  List.length (seed_reads tr) = 1%nat /\
  (List.length (info_fetches tr) <= 1)%nat /\
  pending_fetches tr = [] /\
  (List.length (constructor_calls tr) <= 1)%nat /\
  (List.length (submit_calls tr) <= List.length (constructed tr))%nat /\
  map Block.bare (submit_calls tr)
  = map Block.bare (firstn (List.length (submit_calls tr)) (constructed tr)).

(** * Proofs *)

(** ** Parsing and rendering integers *)

Example SetString10_plain : big.SetString10 "1025" = Some 1025.
Proof. reflexivity. Qed.

Example SetString10_signed : big.SetString10 "-7" = Some (-7).
Proof. reflexivity. Qed.

Example SetString10_empty : big.SetString10 "" = None.
Proof. reflexivity. Qed.

Example SetString10_junk : big.SetString10 "12a" = None.
Proof. reflexivity. Qed.

Example String_neg : big.String_ (-120) = "-120".
Proof. reflexivity. Qed.

Lemma scan_digits_uint (d : Decimal.uint) :
  forall acc, big.scan_digits (NilEmpty.string_of_uint d) acc = Some (uint_value d acc).
Proof.
  induction d; intros acc; simpl; auto.
Qed.

Lemma uint_value_pos (d : Decimal.uint) :
  forall p, uint_value d (Z.pos p) = Z.pos (Pos.of_uint_acc d p).
Proof.
  induction d; intros p; cbn [uint_value Pos.of_uint_acc]; auto;
    match goal with
    | |- uint_value _ ?a = Z.pos (Pos.of_uint_acc _ ?b) =>
        replace a with (Z.pos b) by lia; apply IHd
    end.
Qed.

Lemma uint_value_zero (d : Decimal.uint) :
  uint_value d 0 = Z.of_N (Pos.of_uint d).
Proof.
  induction d; cbn [uint_value Pos.of_uint]; auto; apply (uint_value_pos d).
Qed.

Lemma string_of_uint_head (d : Decimal.uint) :
  d <> Decimal.Nil ->
  big.SetString10 (NilEmpty.string_of_uint d) =
  big.scan_digits (NilEmpty.string_of_uint d) 0.
Proof.
  destruct d; intros Hd; try reflexivity. congruence.
Qed.

Lemma string_of_uint_nonempty (d : Decimal.uint) :
  d <> Decimal.Nil -> NilEmpty.string_of_uint d <> EmptyString.
Proof.
  destruct d; simpl; congruence.
Qed.

(** Parsing the rendering of an integer gives the integer back. *)
Lemma SetString10_String (z : Z) : big.SetString10 (big.String_ z) = Some z.
Proof.
  unfold big.String_. destruct z as [|p|p]; simpl Z.to_int.
  - reflexivity.
  - simpl NilEmpty.string_of_int.
    rewrite string_of_uint_head by apply Unsigned.to_uint_nonnil.
    rewrite scan_digits_uint, uint_value_zero, Unsigned.of_to. reflexivity.
  - simpl NilEmpty.string_of_int.
    pose proof (string_of_uint_nonempty _ (Unsigned.to_uint_nonnil p)) as Hne.
    unfold big.SetString10.
    replace (Ascii.eqb "-" "-") with true by reflexivity.
    destruct (NilEmpty.string_of_uint (Pos.to_uint p)) eqn:E; [congruence|].
    rewrite <- E, scan_digits_uint, uint_value_zero, Unsigned.of_to.
    reflexivity.
Qed.

(** ** The flag package on examples *)

Example scan_index_then_word :
  flag.scan sample_ParseUint ["-a"; "3"; "balance"] (mkCommandLine false false 0 [])
  = flag.Done (mkCommandLine false false 3 ["balance"]).
Proof. reflexivity. Qed.

Example scan_stops_at_first_word :
  flag.scan sample_ParseUint ["balance"; "-a"; "3"] (mkCommandLine false false 0 [])
  = flag.Done (mkCommandLine false false 0 ["balance"; "-a"; "3"]).
Proof. reflexivity. Qed.

Example scan_terminator :
  flag.scan sample_ParseUint ["-y"; "--"; "-n"] (mkCommandLine false false 0 [])
  = flag.Done (mkCommandLine false true 0 ["-n"]).
Proof. reflexivity. Qed.

Example scan_boolean_value :
  flag.scan sample_ParseUint ["--y=false"; "-v=1"] (mkCommandLine false false 0 [])
  = flag.Done (mkCommandLine true false 0 []).
Proof. reflexivity. Qed.

Example scan_undeclared_flag :
  flag.scan sample_ParseUint ["-x"; "balance"] (mkCommandLine false false 0 [])
  = flag.Bad "-x".
Proof. reflexivity. Qed.

Example scan_missing_value :
  flag.scan sample_ParseUint ["-a"] (mkCommandLine false false 0 [])
  = flag.Bad "-a".
Proof. reflexivity. Qed.

Example scan_help :
  flag.scan sample_ParseUint ["-h"] (mkCommandLine false false 0 [])
  = flag.Help.
Proof. reflexivity. Qed.

(** ** Reading the log: basic facts *)

Lemma pick_app {A : Type} (f : Event -> option A) (t1 t2 : Trace) :
  pick f (t1 ++ t2) = pick f t1 ++ pick f t2.
Proof.
  induction t1 as [|e t1 IH]; simpl; [reflexivity|].
  destruct (f e); simpl; rewrite IH; reflexivity.
Qed.

Lemma work_calls_app (t1 t2 : Trace) :
  work_calls (t1 ++ t2) = work_calls t1 ++ work_calls t2.
Proof. apply pick_app. Qed.

(** ** Stepping through a run *)

Lemma all_receive (bs : list Block.t) (n : nat) :
  Forall (fun b => Block.Kind b = Receive) bs ->
  List.length bs = n ->
  map Block.Kind bs = repeat Receive n.
Proof.
  intros H; revert n; induction H as [|b bs Hb _ IH]; intros n <-; simpl.
  - reflexivity.
  - rewrite Hb, (IH _ eq_refl). reflexivity.
Qed.

(** One step of a monadic computation. *)
Ltac run :=
  cbv beta iota zeta delta
      [bind ret emit call os_Exit panic
       GenerateSeed getSeed letUserVerifySend FetchAccountInfo FetchPending
       FirstReceive info_Receive info_Change info_Send
       block_Sign block_FetchWork block_Submit].

Ltac answer H :=
  match type of H with
  | signs ?env ?key =>
      match goal with
      | |- context [signature env ?h ?b key] =>
          let sig := fresh "sig" in
          let E := fresh "E" in
          destruct (H h b) as [sig E]; rewrite E; clear E
      end
  | works ?env =>
      match goal with
      | |- context [node_work env ?h ?b] =>
          let w := fresh "w" in
          let E := fresh "E" in
          destruct (H h b) as [w E]; rewrite E; clear E
      end
  | accepts ?env =>
      match goal with
      | |- context [node_submit env ?h ?b] => rewrite (H h b)
      end
  end.

(** Case analysis on the answer of the next call in the goal. *)
Ltac fork :=
  match goal with
  | |- context [stdin_seed ?e ?h] =>
      destruct (stdin_seed e h) eqn:?
  | |- context [NewPrivateKey ?e ?s ?i] =>
      destruct (NewPrivateKey e s i) eqn:?
  | |- context [NewAccount ?e ?k] =>
      destruct (NewAccount e k) eqn:?
  | |- context [yFlag ?c] =>
      destruct (yFlag c) eqn:?
  | |- context [affirmative ?e ?a] =>
      destruct (affirmative e a) eqn:?
  | |- context [decline ?e] =>
      destruct (decline e) eqn:?
  | |- context [node_account_info ?e ?h ?a] =>
      destruct (node_account_info e h a) as [?|[|?]] eqn:?
  | |- context [node_pending ?e ?h ?a] =>
      destruct (node_pending e h a) eqn:?
  | |- context [big.SetString10 ?s] =>
      destruct (big.SetString10 s) eqn:?
  | |- context [build_change ?e ?i ?r] =>
      destruct (build_change e i r) eqn:?
  | |- context [build_send ?e ?i ?a ?r] =>
      destruct (build_send e i a r) eqn:?
  | |- context [signature ?e ?h ?b ?k] =>
      destruct (signature e h b k) eqn:?
  | |- context [node_work ?e ?h ?b] =>
      destruct (node_work e h b) eqn:?
  | |- context [node_submit ?e ?h ?b] =>
      destruct (node_submit e h b) eqn:?
  end; run.

Ltac trace_done :=
  cbn [snd];
  first [ reflexivity
        | symmetry; apply app_nil_r
        | rewrite <- !app_assoc; cbn [app]; reflexivity ].

(** ** Draining without a failure *)

Section Drain.

Variable env : Env.
Variable account : Account.t.
Variable key : PrivateKey.
Hypothesis Hsign : signs env key.
Hypothesis Hwork : works env.
Hypothesis Hsubmit : accepts env.

(** The loop on an opened account, when nothing fails. *)
Lemma receivePendings_opened (ps : list Pending.t) (amounts : list Z) :
  amounts_of ps amounts ->
  forall info balance tr,
    big.SetString10 (AccountInfo.Balance info) = Some balance ->
    exists info' evs,
      receivePendings env account key ps false info tr
      = (Ret (inl info'), tr ++ evs) /\
      big.SetString10 (AccountInfo.Balance info') = Some (balance + total amounts) /\
      claims (submitted evs) ps /\
      Forall (fun b => Block.Kind b = Receive) (submitted evs) /\
      chained env (AccountInfo.Frontier info) (submitted evs) /\
      submit_calls evs = submitted evs /\
      constructed evs = map Block.bare (submitted evs) /\
      pick (fun e => match e with Stdout s => Some s | _ => None end) evs = [].
Proof.
  induction 1 as [|p a ps amounts Hp Hps IH]; intros info balance tr Hbal.
  - exists info, []. cbn [receivePendings]. run. rewrite app_nil_r.
    cbn [total fold_right]. rewrite Z.add_0_r.
    repeat split; auto; constructor.
  - cbn [receivePendings]. rewrite Hp. run. rewrite Hbal, Hp. run.
    answer Hsign. run. answer Hwork. run. answer Hsubmit. run.
    match goal with
    | |- context [receivePendings _ _ _ _ _ ?i ?t] =>
        destruct (IH i (balance + a) t) as
          (info' & evs & Hrun & Hb & Hcl & Hk & Hch & Hsc & Hco & Hout)
    end.
    { cbn. apply SetString10_String. }
    rewrite Hrun. eexists info', _. split.
    { rewrite <- !app_assoc. cbn [app]. reflexivity. }
    change (total (a :: amounts)) with (a + total amounts).
    unfold submitted, submit_calls, constructed in *. cbn [pick].
    rewrite Hsc, Hco, Hout.
    repeat split; auto.
    + rewrite Hb. f_equal. lia.
    + constructor; auto.
Qed.

(** The loop on an account that is still to be opened. *)
Lemma receivePendings_unopened (ps : list Pending.t) (amounts : list Z) :
  amounts_of ps amounts ->
  forall info tr,
    big.SetString10 (AccountInfo.Balance info) = Some 0 ->
    exists info' evs,
      receivePendings env account key ps true info tr
      = (Ret (inl info'), tr ++ evs) /\
      big.SetString10 (AccountInfo.Balance info') = Some (total amounts) /\
      claims (submitted evs) ps /\
      map Block.Kind (submitted evs)
      = match ps with
        | [] => []
        | _ :: rest => Open :: repeat Receive (List.length rest)
        end /\
      chained env None (submitted evs) /\
      submit_calls evs = submitted evs /\
      constructed evs = map Block.bare (submitted evs) /\
      pick (fun e => match e with Stdout s => Some s | _ => None end) evs = [].
Proof.
  intros Hps info tr Hbal.
  destruct Hps as [|p a ps amounts Hp Hps].
  - exists info, []. cbn [receivePendings]. run. rewrite app_nil_r.
    repeat split; auto; constructor.
  - cbn [receivePendings]. rewrite Hp. run.
    answer Hsign. run. answer Hwork. run. answer Hsubmit. run.
    match goal with
    | |- context [receivePendings _ _ _ _ _ ?i ?t] =>
        destruct (receivePendings_opened ps amounts Hps i a t) as
          (info' & evs & Hrun & Hb & Hcl & Hk & Hch & Hsc & Hco & Hout)
    end.
    { exact Hp. }
    rewrite Hrun. eexists info', _. split.
    { rewrite <- !app_assoc. cbn [app]. reflexivity. }
    change (total (a :: amounts)) with (a + total amounts).
    pose proof (all_receive _ _ Hk (Forall2_length Hcl)) as Hkinds.
    unfold submitted, submit_calls, constructed in *. cbn [pick].
    rewrite Hsc, Hco, Hout.
    repeat split; auto.
    + constructor; auto.
    + cbn [map]. rewrite Hkinds. reflexivity.
Qed.

End Drain.

(** C1. Draining a previously-unopened account: with [N] pending
    transfers of amounts [a1..aN] and no failing step, the balance
    operation succeeds, hands exactly [N] blocks to the node, all
    accepted, one per transfer and in order; the first is an Open block
    and the others are Receive blocks; each names the frontier resulting
    from the block before it; and the balance printed is the rendering of
    [a1 + ... + aN]. *)
Theorem C1_drain_unopened_account
        (env : Env) (cl : CommandLine) (key : PrivateKey) (account : Account.t)
        (ps : list Pending.t) (amounts : list Z) :
  derives env cl key account ->
  (forall h, node_account_info env h account = inr ErrAccountNotFound) ->
  (forall h, node_pending env h account = inl ps) ->
  amounts_of ps amounts ->
  signs env key -> works env -> accepts env ->
  exists tr,
    printBalance env cl [] = (Ret None, tr) /\
    submit_calls tr = submitted tr /\
    List.length (submitted tr) = List.length ps /\
    claims (submitted tr) ps /\
    map Block.Kind (submitted tr)
    = match ps with
      | [] => []
      | _ :: rest => Open :: repeat Receive (List.length rest)
      end /\
    chained env None (submitted tr) /\
    stdout tr = (rawToXNO env (total amounts) ++ nl)%string.
Proof.
  intros (seed & Hseed & Hkey & Hacct) Hinfo Hpend Hamounts Hsign Hwork Hsubmit.
  unfold printBalance, drainPending. run.
  rewrite Hseed, Hkey, Hacct, Hinfo. run. rewrite Hpend. run.
  match goal with
  | |- context [receivePendings _ _ _ _ _ ?i ?t] =>
      destruct (receivePendings_unopened env account key Hsign Hwork Hsubmit
                  ps amounts Hamounts i t) as
        (info' & evs & Hrun & Hb & Hcl & Hk & Hch & Hsc & Hco & Hout)
  end.
  { reflexivity. }
  rewrite Hrun, Hb. eexists. split; [reflexivity|].
  unfold stdout, submitted, submit_calls in *.
  rewrite !pick_app, Hout, Hsc. cbn [pick app]. rewrite !app_nil_r.
  repeat split; auto.
  apply (Forall2_length Hcl).
Qed.

Lemma stub_derives (state : AccountInfo.t + error) (ps : list Pending.t)
      (k : option nat) (answer : string) (index : Z) (l : list string)
      (v y : bool) :
  derives (stub state ps k answer) (mkCommandLine v y index l)
          (uint32 index + 1) (Account.mk (uint32 index + 1) "nano_me").
Proof. exists "5EED". repeat split. Qed.

Lemma stub_signs (state : AccountInfo.t + error) (ps : list Pending.t)
      (k : option nat) (answer : string) (key : PrivateKey) :
  signs (stub state ps k answer) key.
Proof. intros h b. exists "sig". reflexivity. Qed.

Lemma stub_works (state : AccountInfo.t + error) (ps : list Pending.t)
      (answer : string) :
  works (stub state ps None answer).
Proof. intros h b. exists "work". reflexivity. Qed.

Lemma stub_accepts (state : AccountInfo.t + error) (ps : list Pending.t)
      (k : option nat) (answer : string) :
  accepts (stub state ps k answer).
Proof. intros h b. reflexivity. Qed.

Lemma C1_drain_unopened_account_witness :
  exists tr,
    printBalance (stub (inr ErrAccountNotFound) [X_transfer; Y_transfer] None "y")
                 balance_line [] = (Ret None, tr) /\
    submit_calls tr = submitted tr /\
    List.length (submitted tr) = 2%nat /\
    claims (submitted tr) [X_transfer; Y_transfer] /\
    map Block.Kind (submitted tr) = [Open; Receive] /\
    chained (stub (inr ErrAccountNotFound) [X_transfer; Y_transfer] None "y")
            None (submitted tr) /\
    stdout tr = ("1.125" ++ nl)%string.
Proof.
  apply (C1_drain_unopened_account
           (stub (inr ErrAccountNotFound) [X_transfer; Y_transfer] None "y")
           balance_line 1 (Account.mk 1 "nano_me")
           [X_transfer; Y_transfer]
           [1025000000000000000000000000; 100000000000000000000000000]).
  - apply (stub_derives _ _ _ _ 0).
  - reflexivity.
  - reflexivity.
  - repeat constructor.
  - apply stub_signs.
  - apply stub_works.
  - apply stub_accepts.
Defined.

Lemma string_app_assoc (a b c : string) :
  ((a ++ b) ++ c = a ++ (b ++ c))%string.
Proof.
  induction a as [|x a IH]; simpl; [reflexivity|]. rewrite IH. reflexivity.
Qed.

Lemma parse_X_amount :
  big.SetString10 "1025000000000000000000000000"
  = Some 1025000000000000000000000000.
Proof. reflexivity. Qed.

Lemma parse_Y_amount :
  big.SetString10 "100000000000000000000000000"
  = Some 100000000000000000000000000.
Proof. reflexivity. Qed.

(** C7. The scenario of an unopened account with two pending transfers,
    of 1025000000000000000000000000 raw from X and of
    100000000000000000000000000 raw from Y: exactly two blocks are
    submitted, an Open block and then a Receive block; the primary output
    carries the final balance and nothing else, which reads 1.125 when
    the display conversion renders the raw sum so; the diagnostic stream
    carries the two narration lines, in transfer order. *)
Theorem C7_two_transfer_scenario
        (env : Env) (cl : CommandLine) (key : PrivateKey) (account : Account.t)
        (X Y hx hy : string) :
  derives env cl key account ->
  (forall h, node_account_info env h account = inr ErrAccountNotFound) ->
  (forall h, node_pending env h account
             = inl [Pending.mk "1025000000000000000000000000" X hx;
                    Pending.mk "100000000000000000000000000" Y hy]) ->
  signs env key -> works env -> accepts env ->
  rawToXNO env 1125000000000000000000000000 = "1.125" ->
  exists tr,
    printBalance env cl [] = (Ret None, tr) /\
    map Block.Kind (submit_calls tr) = [Open; Receive] /\
    map Block.Link (submit_calls tr) = [hx; hy] /\
    submitted tr = submit_calls tr /\
    stdout tr = ("1.125" ++ nl)%string /\
    stderr tr
    = (("Creating receive block for "
        ++ rawToXNO env 1025000000000000000000000000
        ++ " from " ++ X ++ "... " ++ "opening account... " ++ "done" ++ nl)
       ++ ("Creating receive block for "
           ++ rawToXNO env 100000000000000000000000000
           ++ " from " ++ Y ++ "... " ++ "done" ++ nl))%string.
Proof.
  intros (seed & Hseed & Hkey & Hacct) Hinfo Hpend Hsign Hwork Hsubmit Hshow.
  unfold printBalance, drainPending. run.
  rewrite Hseed, Hkey, Hacct, Hinfo. run. rewrite Hpend. run.
  cbn [receivePendings Pending.Amount]. rewrite parse_X_amount. run.
  answer Hsign. run. answer Hwork. run. answer Hsubmit. run.
  cbn [Pending.Amount Block.Balance AccountInfo.Balance].
  rewrite parse_X_amount, parse_Y_amount. run.
  answer Hsign. run. answer Hwork. run. answer Hsubmit. run.
  cbn [Block.Balance AccountInfo.Balance]. rewrite SetString10_String.
  change (1025000000000000000000000000 + 100000000000000000000000000)
    with 1125000000000000000000000000.
  rewrite Hshow.
  eexists. split; [reflexivity|].
  repeat split.
  cbn [stderr pick app Pending.Source String.concat].
  rewrite !string_app_assoc. reflexivity.
Qed.

Lemma C7_two_transfer_scenario_witness :
  exists tr,
    printBalance (stub (inr ErrAccountNotFound) [X_transfer; Y_transfer] None "y")
                 balance_line [] = (Ret None, tr) /\
    map Block.Kind (submit_calls tr) = [Open; Receive] /\
    map Block.Link (submit_calls tr) = ["hx"; "hy"] /\
    submitted tr = submit_calls tr /\
    stdout tr = ("1.125" ++ nl)%string /\
    stderr tr
    = (("Creating receive block for 1.025 from X... opening account... done" ++ nl)
       ++ ("Creating receive block for 0.100 from Y... done" ++ nl))%string.
Proof.
  apply (C7_two_transfer_scenario
           (stub (inr ErrAccountNotFound) [X_transfer; Y_transfer] None "y")
           balance_line 1 (Account.mk 1 "nano_me") "X" "Y" "hx" "hy").
  - apply (stub_derives _ _ _ _ 0).
  - reflexivity.
  - reflexivity.
  - apply stub_signs.
  - apply stub_works.
  - apply stub_accepts.
  - reflexivity.
Defined.

(** ** Where an Open block can appear *)

Ltac stopped :=
  eexists; split; [trace_done|cbn; repeat constructor].

Section AnyRun.

Variable env : Env.
Variable account : Account.t.
Variable key : PrivateKey.

(** Whatever the outside world answers, the loop only appends to the
    log, and the blocks it constructs are Receive blocks, except
    possibly the very first one when [firstReceive] is set. *)
Lemma receivePendings_constructs (ps : list Pending.t) :
  forall firstReceive info tr,
  exists evs,
    snd (receivePendings env account key ps firstReceive info tr) = tr ++ evs /\
    opens_first firstReceive (constructed evs).
Proof.
  induction ps as [|p ps IH]; intros fr info tr; cbn [receivePendings].
  - exists []. run. split; [trace_done|]. destruct fr; constructor.
  - run. fork.
    2:{ exists []. split; [trace_done|]. destruct fr; constructor. }
    destruct fr; run.
    + do 2 (fork; [|stopped]).
      fork; [stopped|].
      match goal with
      | |- context [receivePendings _ _ _ _ _ ?i ?t] =>
          destruct (IH false i t) as (evs & Hrun & Hc)
      end.
      rewrite Hrun. eexists. split; [trace_done|].
      unfold constructed in *. cbn [pick opens_first] in *. exact Hc.
    + cbn [AccountInfo.Balance]. 
      fork; [|stopped].
      do 2 (fork; [|stopped]).
      fork; [stopped|].
      match goal with
      | |- context [receivePendings _ _ _ _ _ ?i ?t] =>
          destruct (IH false i t) as (evs & Hrun & Hc)
      end.
      rewrite Hrun. eexists. split; [trace_done|].
      unfold constructed in *. cbn [pick opens_first] in *.
      constructor; [reflexivity|exact Hc].
Qed.

End AnyRun.

Ltac only_loop H :=
  cbn [snd]; unfold constructed in *; rewrite ?pick_app;
  cbn [pick app]; rewrite ?app_nil_r; exact H.

Ltac enter_loop L evs Hrun Hc :=
  match goal with
  | |- context [receivePendings ?e ?a ?k ?ps ?f ?i ?t] =>
      destruct (L e a k ps f i t) as (evs & Hrun & Hc);
      destruct (receivePendings e a k ps f i t) as [[[?|?]|?|] ?];
      cbn [snd] in Hrun; subst
  end; run.

(** Where the balance operation can construct an Open block: only if the
    node reported the account as not found, and then only first. *)
Lemma printBalance_constructs (env : Env) (cl : CommandLine) :
  let tr := snd (printBalance env cl []) in
  (exists a, In (AccountInfoFetched a (inr ErrAccountNotFound)) tr) /\
  opens_first true (constructed tr)
  \/ opens_first false (constructed tr).
Proof.
  unfold printBalance, drainPending. run.
  do 3 (fork; [|right; constructor]).
  fork; [| |right; constructor].
  - right. fork; [|constructor].
    enter_loop receivePendings_constructs evs Hrun Hc; try only_loop Hc.
    fork; only_loop Hc.
  - left. split.
    { eexists.
      fork; [|cbn [snd]; right; left; reflexivity].
      enter_loop receivePendings_constructs evs Hrun Hc; try fork; cbn [snd];
        rewrite ?in_app_iff; cbn [In]; eauto 10. }
    fork; [|constructor].
    enter_loop receivePendings_constructs evs Hrun Hc; try only_loop Hc.
    fork; only_loop Hc.
Qed.

Lemma all_receives_no_open (bs : list Block.t) :
  all_receives bs -> filter is_open bs = [].
Proof.
  induction 1 as [|b bs Hb _ IH]; cbn [filter]; [reflexivity|].
  unfold is_open. rewrite Hb. exact IH.
Qed.

Lemma all_receives_nth (bs : list Block.t) (i : nat) (b : Block.t) :
  all_receives bs -> nth_error bs i = Some b -> Block.Kind b = Receive.
Proof.
  intros H Hi. apply nth_error_In in Hi.
  unfold all_receives in H. rewrite Forall_forall in H. auto.
Qed.

Lemma opens_first_count (firstReceive : bool) (bs : list Block.t) :
  opens_first firstReceive bs ->
  (List.length (filter is_open bs) <= 1)%nat /\
  (forall i b, nth_error bs i = Some b -> Block.Kind b = Open -> i = 0%nat) /\
  (firstReceive = false -> filter is_open bs = []).
Proof.
  destruct firstReceive; cbn [opens_first]; intros H.
  - destruct bs as [|b0 bs]; cbn [filter].
    + repeat split; auto. intros [|i] b Hi; discriminate.
    + repeat split.
      * rewrite (all_receives_no_open _ H). destruct (is_open b0); cbn; lia.
      * intros [|i] b Hi Hk; [reflexivity|]. cbn [nth_error] in Hi.
        rewrite (all_receives_nth _ _ _ H Hi) in Hk. discriminate.
      * discriminate.
  - rewrite (all_receives_no_open _ H). repeat split; auto.
    intros i b Hi Hk. rewrite (all_receives_nth _ _ _ H Hi) in Hk. discriminate.
Qed.

(** C3. In a run of the balance operation at most one Open block is
    constructed; if one is, the account query reported the account as not
    found, and the Open block is the first block constructed.  When the
    account exists, draining [M] pending transfers without a failing step
    submits exactly [M] blocks, all of them Receive blocks, and no Open
    block is constructed. *)
Theorem C3_open_block_only_first (env : Env) (cl : CommandLine) :
  (let tr := snd (printBalance env cl []) in
   (List.length (filter is_open (constructed tr)) <= 1)%nat /\
   (forall i b, nth_error (constructed tr) i = Some b ->
                Block.Kind b = Open -> i = 0%nat) /\
   (filter is_open (constructed tr) <> [] ->
    exists a, In (AccountInfoFetched a (inr ErrAccountNotFound)) tr))
  /\
  (forall key account info balance ps amounts,
      derives env cl key account ->
      (forall h, node_account_info env h account = inl info) ->
      big.SetString10 (AccountInfo.Balance info) = Some balance ->
      (forall h, node_pending env h account = inl ps) ->
      amounts_of ps amounts ->
      signs env key -> works env -> accepts env ->
      let tr := snd (printBalance env cl []) in
      fst (printBalance env cl []) = Ret None /\
      submit_calls tr = submitted tr /\
      List.length (submitted tr) = List.length ps /\
      all_receives (submitted tr) /\
      filter is_open (constructed tr) = []).
Proof.
  split.
  - intros tr. destruct (printBalance_constructs env cl) as [[Hnf H]|H];
      fold tr in Hnf, H || fold tr in H;
      destruct (opens_first_count _ _ H) as (Hcount & Hpos & Hnone).
    + auto.
    + repeat split; auto. intros Hne. destruct Hne. auto.
  - intros key account info balance ps amounts
           (seed & Hseed & Hkey & Hacct) Hinfo Hbal Hpend Hamounts
           Hsign Hwork Hsubmit.
    unfold printBalance, drainPending. run.
    rewrite Hseed, Hkey, Hacct, Hinfo. run. rewrite Hpend. run.
    match goal with
    | |- context [receivePendings _ _ _ _ _ ?i ?t] =>
        destruct (receivePendings_opened env account key Hsign Hwork Hsubmit
                    ps amounts Hamounts i balance t Hbal) as
          (info' & evs & Hrun & Hb & Hcl & Hk & Hch & Hsc & Hco & Hout)
    end.
    rewrite Hrun, Hb. cbn [fst snd].
    unfold submitted, submit_calls, constructed in *.
    rewrite !pick_app, Hsc, Hco. cbn [pick app]. rewrite !app_nil_r.
    repeat split; auto.
    + apply (Forall2_length Hcl).
    + apply all_receives_no_open. unfold all_receives.
      rewrite Forall_map. exact Hk.
Qed.

Lemma C3_open_block_only_first_witness :
  let env := stub (inl opened_account) [X_transfer; Y_transfer] None "y" in
  let tr := snd (printBalance env balance_line []) in
  ((List.length (filter is_open (constructed tr)) <= 1)%nat /\
   (forall i b, nth_error (constructed tr) i = Some b ->
                Block.Kind b = Open -> i = 0%nat) /\
   (filter is_open (constructed tr) <> [] ->
    exists a, In (AccountInfoFetched a (inr ErrAccountNotFound)) tr))
  /\
  (fst (printBalance env balance_line []) = Ret None /\
   submit_calls tr = submitted tr /\
   List.length (submitted tr) = 2%nat /\
   all_receives (submitted tr) /\
   filter is_open (constructed tr) = []).
Proof.
  intros env tr.
  destruct (C3_open_block_only_first env balance_line) as [Hany Hopened].
  split; [exact Hany|].
  apply (Hopened 1 (Account.mk 1 "nano_me") opened_account 5
                 [X_transfer; Y_transfer]
                 [1025000000000000000000000000; 100000000000000000000000000]).
  - apply (stub_derives _ _ _ _ 0).
  - reflexivity.
  - reflexivity.
  - reflexivity.
  - repeat constructor.
  - apply stub_signs.
  - apply stub_works.
  - apply stub_accepts.
Defined.

(** ** The answer of the account query *)

(** C4. When the account query reports the account as not found, the
    balance operation goes on as [drainPending] with a first receive and
    the synthesized state of balance zero and no frontier; with nothing
    pending it ends without error and prints the zero balance.  Any
    other error of the account query is returned at once: nothing is
    done after the failed query. *)
Theorem C4_not_found_starts_first_receive
        (env : Env) (cl : CommandLine) (seed : string) (key : PrivateKey)
        (account : Account.t) (e : error) :
  (forall h, stdin_seed env h = inl seed) ->
  NewPrivateKey env seed (uint32 (accountIndexFlag cl)) = inl key ->
  NewAccount env key = inl account ->
  (forall h, node_account_info env h account = inr e) ->
  let asked := [SeedRead (inl seed); AccountInfoFetched account (inr e)] in
  (e = ErrAccountNotFound ->
   printBalance env cl []
   = drainPending env account key true (AccountInfo.mk None "" "0" "") asked /\
   ((forall h, node_pending env h account = inl []) ->
    printBalance env cl []
    = (Ret None,
       asked ++ [PendingFetched account (inl []);
                 Stdout (rawToXNO env 0 ++ nl)%string])))
  /\
  (e <> ErrAccountNotFound ->
   printBalance env cl [] = (Ret (Some e), asked)).
Proof.
  intros Hseed Hkey Hacct Hinfo asked. split.
  - intros ->. split.
    + unfold printBalance. run. rewrite Hseed, Hkey, Hacct, Hinfo. run.
      reflexivity.
    + intros Hpend. unfold printBalance, drainPending. run.
      rewrite Hseed, Hkey, Hacct, Hinfo. run. rewrite Hpend. run.
      cbn [receivePendings]. run. reflexivity.
  - intros Hne. unfold printBalance. run.
    rewrite Hseed, Hkey, Hacct, Hinfo. run.
    destruct e; [congruence|reflexivity].
Qed.

Lemma C4_not_found_starts_first_receive_witness :
  let account := Account.mk 1 "nano_me" in
  let unopened := stub (inr ErrAccountNotFound) [] None "y" in
  let unreachable := stub (inr (Err "timeout")) [] None "y" in
  (printBalance unopened balance_line []
   = drainPending unopened account 1 true (AccountInfo.mk None "" "0" "")
                  [SeedRead (inl "5EED");
                   AccountInfoFetched account (inr ErrAccountNotFound)] /\
   printBalance unopened balance_line []
   = (Ret None,
      [SeedRead (inl "5EED");
       AccountInfoFetched account (inr ErrAccountNotFound);
       PendingFetched account (inl []); Stdout ("0.000" ++ nl)%string]))
  /\
  printBalance unreachable balance_line []
  = (Ret (Some (Err "timeout")),
     [SeedRead (inl "5EED"); AccountInfoFetched account (inr (Err "timeout"))]).
Proof.
  intros account unopened unreachable. split.
  - destruct (C4_not_found_starts_first_receive
                unopened balance_line "5EED" 1 account ErrAccountNotFound
                (fun _ => eq_refl) eq_refl eq_refl (fun _ => eq_refl))
      as [Hnf _].
    destruct (Hnf eq_refl) as [Hgo Hnone].
    split; [exact Hgo|]. apply Hnone. reflexivity.
  - destruct (C4_not_found_starts_first_receive
                unreachable balance_line "5EED" 1 account (Err "timeout")
                (fun _ => eq_refl) eq_refl eq_refl (fun _ => eq_refl))
      as [_ Hother].
    apply Hother. discriminate.
Defined.

(** ** A failing work request *)

Ltac count_work :=
  unfold work_calls in *; rewrite ?pick_app; cbn [pick];
  rewrite ?app_nil_r, ?length_app; cbn [List.length]; lia.

Section FailingWork.

Variable env : Env.
Variable account : Account.t.
Variable key : PrivateKey.
Variable e : error.
Hypothesis Hsign : signs env key.
Hypothesis Hsubmit : accepts env.

Lemma receivePendings_work_fails (n : nat) :
  forall ps amounts firstReceive info tr,
    (n < List.length ps)%nat ->
    amounts_of ps amounts ->
    (firstReceive = false ->
     exists balance, big.SetString10 (AccountInfo.Balance info) = Some balance) ->
    work_fails_after env (List.length (work_calls tr) + n) e ->
    exists evs b,
      receivePendings env account key ps firstReceive info tr
      = (Ret (inr e), (tr ++ evs) ++ [WorkFetched b (inr e)]) /\
      submit_calls evs = submitted evs /\
      claims (submitted evs) (firstn n ps) /\
      Some (Block.Link b) = option_map Pending.Hash (nth_error ps n) /\
      pick (fun e => match e with Stdout s => Some s | _ => None end) evs = [].
Proof.
  induction n as [|n IH]; intros ps amounts fr info tr Hn Hps Hinfo [Hok Hfail];
    destruct Hps as [|p a ps amounts Hp Hps]; cbn [List.length] in Hn; try lia;
    cbn [receivePendings]; rewrite Hp; run.
  - assert (Hstop : forall h b, List.length (work_calls h) = List.length (work_calls tr) ->
                                node_work env h b = inr e).
    { intros h b Hh. apply Hfail. lia. }
    destruct fr; run.
    + answer Hsign. run. rewrite Hstop by count_work. run.
      eexists _, _. split; [do 2 f_equal; trace_done|].
      repeat split; constructor.
    + destruct (Hinfo eq_refl) as [balance Hbal]. rewrite Hbal, Hp. run.
      answer Hsign. run. rewrite Hstop by count_work. run.
      eexists _, _. split; [do 2 f_equal; trace_done|].
      repeat split; constructor.
  - assert (Hgo : forall h b, List.length (work_calls h) = List.length (work_calls tr) ->
                              exists w, node_work env h b = inl w).
    { intros h b Hh. apply Hok. lia. }
    assert (Hnext : forall t, List.length (work_calls t) = S (List.length (work_calls tr)) ->
                              work_fails_after env (List.length (work_calls t) + n) e).
    { intros t Ht. split; intros h b Hh; [apply Hok|apply Hfail]; lia. }
    destruct fr; run.
    + answer Hsign. run.
      match goal with
      | |- context [node_work env ?h ?b] =>
          destruct (Hgo h b) as [w Hw]; [count_work|rewrite Hw; clear Hw]
      end.
      run. answer Hsubmit. run.
      match goal with
      | |- context [receivePendings _ _ _ _ _ ?i ?t] =>
          destruct (IH ps amounts false i t) as (evs & b & Hrun & Hsc & Hcl & Hb & Hout)
      end; auto.
      { lia. }
      { intros _. exists a. exact Hp. }
      { apply Hnext. count_work. }
      rewrite Hrun. eexists _, b. split; [do 2 f_equal; trace_done|].
      unfold submitted, submit_calls in *. cbn [pick firstn nth_error].
      rewrite Hsc, Hout. repeat split; auto. constructor; auto.
    + destruct (Hinfo eq_refl) as [balance Hbal]. rewrite Hbal, Hp. run.
      answer Hsign. run.
      match goal with
      | |- context [node_work env ?h ?b] =>
          destruct (Hgo h b) as [w Hw]; [count_work|rewrite Hw; clear Hw]
      end.
      run. answer Hsubmit. run.
      match goal with
      | |- context [receivePendings _ _ _ _ _ ?i ?t] =>
          destruct (IH ps amounts false i t) as (evs & b & Hrun & Hsc & Hcl & Hb & Hout)
      end; auto.
      { lia. }
      { intros _. eexists. cbn. apply SetString10_String. }
      { apply Hnext. count_work. }
      rewrite Hrun. eexists _, b. split; [do 2 f_equal; trace_done|].
      unfold submitted, submit_calls in *. cbn [pick firstn nth_error].
      rewrite Hsc, Hout. repeat split; auto. constructor; auto.
Qed.

End FailingWork.

(** C2. If, while [N] pending transfers are drained, the work request
    for the [k]-th transfer fails, the balance operation returns that
    error and the failed request is the last thing it did: by then
    exactly [k-1] blocks were submitted, all accepted, those of the
    first [k-1] transfers; nothing was submitted for transfer [k] or a
    later one, and nothing follows that could undo a submission. *)
Theorem C2_work_failure_keeps_submitted
        (env : Env) (cl : CommandLine) (key : PrivateKey) (account : Account.t)
        (state : AccountInfo.t + error)
        (ps : list Pending.t) (amounts : list Z) (k : nat) (e : error) :
  derives env cl key account ->
  (forall h, node_account_info env h account = state) ->
  (state = inr ErrAccountNotFound \/
   exists info balance,
     state = inl info /\
     big.SetString10 (AccountInfo.Balance info) = Some balance) ->
  (forall h, node_pending env h account = inl ps) ->
  amounts_of ps amounts ->
  signs env key -> accepts env ->
  (1 <= k <= List.length ps)%nat ->
  work_fails_after env (k - 1) e ->
  exists pre b,
    printBalance env cl [] = (Ret (Some e), pre ++ [WorkFetched b (inr e)]) /\
    Some (Block.Link b) = option_map Pending.Hash (nth_error ps (k - 1)) /\
    submit_calls pre = submitted pre /\
    List.length (submitted pre) = (k - 1)%nat /\
    claims (submitted pre) (firstn (k - 1) ps) /\
    stdout (pre ++ [WorkFetched b (inr e)]) = "".
Proof.
  intros (seed & Hseed & Hkey & Hacct) Hinfo Hstate Hpend Hamounts
         Hsign Hsubmit Hk Hwork.
  unfold printBalance, drainPending. run.
  rewrite Hseed, Hkey, Hacct, Hinfo.
  destruct Hstate as [->|(info & balance & -> & Hbal)]; run; rewrite Hpend; run.
  - match goal with
    | |- context [receivePendings _ _ _ _ _ ?i ?t] =>
        destruct (receivePendings_work_fails env account key e Hsign Hsubmit
                    (k - 1) ps amounts true i t)
          as (evs & b & Hrun & Hsc & Hcl & Hb & Hout)
    end; auto; try lia; try discriminate.
    rewrite Hrun. eexists _, b. split; [reflexivity|].
    unfold stdout, submitted, submit_calls in *.
    rewrite !pick_app, Hsc, Hout. cbn [pick app].
    repeat split; auto.
    rewrite (Forall2_length Hcl), length_firstn. lia.
  - match goal with
    | |- context [receivePendings _ _ _ _ _ ?i ?t] =>
        destruct (receivePendings_work_fails env account key e Hsign Hsubmit
                    (k - 1) ps amounts false i t)
          as (evs & b & Hrun & Hsc & Hcl & Hb & Hout)
    end; auto; try lia; eauto.
    rewrite Hrun. eexists _, b. split; [reflexivity|].
    unfold stdout, submitted, submit_calls in *.
    rewrite !pick_app, Hsc, Hout. cbn [pick app].
    repeat split; auto.
    rewrite (Forall2_length Hcl), length_firstn. lia.
Qed.

Lemma stub_work_fails (state : AccountInfo.t + error) (ps : list Pending.t)
      (n : nat) (answer : string) :
  work_fails_after (stub state ps (Some (S n)) answer) n (Err "no work").
Proof.
  split; intros h b Hh; cbn [node_work stub].
  - exists "work".
    destruct (Nat.eqb_spec (S (List.length (work_calls h))) (S n)); [lia|reflexivity].
  - rewrite Hh, Nat.eqb_refl. reflexivity.
Qed.

Lemma C2_work_failure_keeps_submitted_witness :
  exists pre b,
    printBalance (stub (inr ErrAccountNotFound) [X_transfer; Y_transfer]
                       (Some 2%nat) "y")
                 balance_line []
    = (Ret (Some (Err "no work")), pre ++ [WorkFetched b (inr (Err "no work"))]) /\
    Some (Block.Link b) = Some "hy" /\
    submit_calls pre = submitted pre /\
    List.length (submitted pre) = 1%nat /\
    claims (submitted pre) [X_transfer] /\
    stdout (pre ++ [WorkFetched b (inr (Err "no work"))]) = "".
Proof.
  apply (C2_work_failure_keeps_submitted
           (stub (inr ErrAccountNotFound) [X_transfer; Y_transfer] (Some 2%nat) "y")
           balance_line 1 (Account.mk 1 "nano_me") (inr ErrAccountNotFound)
           [X_transfer; Y_transfer]
           [1025000000000000000000000000; 100000000000000000000000000]
           2%nat (Err "no work")).
  - apply (stub_derives _ _ _ _ 0).
  - reflexivity.
  - left. reflexivity.
  - reflexivity.
  - repeat constructor.
  - apply stub_signs.
  - apply stub_accepts.
  - cbn. lia.
  - apply (stub_work_fails _ _ 1).
Defined.

(** ** The order of signing, work and submission *)

(** What the last event says about the log before it. *)
Lemma obeys_last (tr : Trace) (e : Event) (ph : Phase) :
  obeys (tr ++ [e]) ph ->
  match e with
  | Signed b (inl sig) =>
      ph = HasSignature (Block.with_Signature b sig) /\ obeys tr Idle
  | Signed b (inr _) => ph = Aborted /\ obeys tr Idle
  | WorkFetched b (inl w) =>
      ph = HasWork (Block.with_Work b w) /\ obeys tr (HasSignature b)
  | WorkFetched b (inr _) => ph = Aborted /\ obeys tr (HasSignature b)
  | Submitted b _ => ph = Idle /\ obeys tr (HasWork b)
  | _ => ph = Idle /\ obeys tr Idle
  end.
Proof.
  intros H. remember (tr ++ [e]) as t eqn:Et.
  destruct H as [|t0 e0 H0 Hne|t0 b sig H0|t0 b e0 H0|t0 b w H0|t0 b e0 H0|t0 b r H0];
    try (destruct tr; discriminate Et);
    apply app_inj_tail in Et; destruct Et as [<- <-]; auto.
  destruct e0 as [| | | | | | | | | |b r|b r|b r]; try discriminate Hne; auto.
Qed.

Lemma snoc_split {A : Type} (t pre post : list A) (e x : A) :
  t ++ [e] = pre ++ x :: post ->
  (post = [] /\ pre = t /\ x = e) \/
  (exists post', post = post' ++ [e] /\ t = pre ++ x :: post').
Proof.
  intros H. induction post as [|y post' _] using rev_ind.
  - left. apply app_inj_tail in H. destruct H as [-> ->]. auto.
  - right. exists post'.
    change (pre ++ x :: post' ++ [y]) with (pre ++ (x :: post') ++ [y]) in H.
    rewrite app_assoc in H. apply app_inj_tail in H. destruct H as [-> ->]. auto.
Qed.

Lemma obeys_has_work (tr : Trace) (b : Block.t) :
  obeys tr (HasWork b) ->
  exists pre' b0 sig w,
    tr = pre' ++ [Signed b0 (inl sig);
                  WorkFetched (Block.with_Signature b0 sig) (inl w)] /\
    b = Block.with_Work (Block.with_Signature b0 sig) w.
Proof.
  intros H. inversion H as [| | | |t1 b1 w H1| |]; subst.
  inversion H1 as [| |t2 b2 sig H2| | | |]; subst.
  exists t2, b2, sig, w. rewrite <- app_assoc. auto.
Qed.

Lemma obeys_not_after_failure (tr pre : Trace) (e : Event) (ph : Phase) :
  obeys tr ph -> tr = pre ++ [e] ->
  match e with
  | Signed _ (inr _) | WorkFetched _ (inr _) => ph = Aborted
  | _ => True
  end.
Proof.
  intros H ->. apply obeys_last in H.
  destruct e as [| | | | | | | | | |b [|]|b [|]|b r]; tauto.
Qed.

Lemma obeys_guarded (tr : Trace) (ph : Phase) :
  obeys tr ph -> submit_guarded tr.
Proof.
  induction 1 as [|t e0 H0 IH Hne|t b0 sig H0 IH|t b0 e0 H0 IH
                  |t b0 w H0 IH|t b0 e0 H0 IH|t b0 r0 H0 IH];
    try destruct IH as (IH1 & IH2 & IH3).
  1:{ repeat split; intros pre b r post E; destruct pre; discriminate E. }
  all: split; [|split]; intros pre b r post E;
      apply snoc_split in E; destruct E as [(-> & -> & E)|(post' & -> & ->)];
      try reflexivity;
      try (subst; discriminate);
      try (eapply IH1; reflexivity);
      try (exfalso;
           first [ pose proof (IH2 _ _ _ _ eq_refl) as ->
                 | pose proof (IH3 _ _ _ _ eq_refl) as -> ];
           pose proof (obeys_not_after_failure _ _ _ _ H0 eq_refl) as Hph;
           cbn in Hph; discriminate Hph).
  injection E as -> ->.
  destruct (obeys_has_work _ _ H0) as (pre' & b1 & sig & w & -> & ->).
  exists pre', b1, sig, w. auto.
Qed.

(** Extends the discipline by the last event of the log, trying the
    rules in turn. *)
Ltac obey :=
  repeat first
    [ eassumption
    | econstructor; try reflexivity;
      match goal with
      | |- _ = _ => fail 1
      | _ => idtac
      end ].

Ltac ends := solve [cbn [snd]; eexists; obey].

Ltac stops :=
  solve [cbn [fst snd]; eexists; split; [obey|intros ? ?; discriminate]].

(** The loop keeps the discipline, whatever the outside world answers,
    and leaves no block half-way when it completes. *)
Lemma receivePendings_obeys (env : Env) (account : Account.t) (key : PrivateKey)
      (ps : list Pending.t) :
  forall firstReceive info tr,
    obeys tr Idle ->
    exists ph,
      obeys (snd (receivePendings env account key ps firstReceive info tr)) ph /\
      (forall info',
          fst (receivePendings env account key ps firstReceive info tr)
          = Ret (inl info') -> ph = Idle).
Proof.
  induction ps as [|p ps IH]; intros fr info tr Hidle; cbn [receivePendings]; run.
  - exists Idle. split; [assumption|reflexivity].
  - fork; [|stops].
    destruct fr; run.
    + do 2 (fork; [|stops]). fork; [stops|]. apply IH. obey.
    + cbn [AccountInfo.Balance]. fork; [|stops].
      do 2 (fork; [|stops]). fork; [stops|]. apply IH. obey.
Qed.

Ltac loop_obeys L :=
  match goal with
  | |- context [receivePendings ?e ?a ?k ?ps ?f ?i ?t] =>
      let ph := fresh "ph" in
      let H := fresh "H" in
      let Hi := fresh "Hi" in
      destruct (L e a k ps f i t) as (ph & H & Hi); [obey|];
      destruct (receivePendings e a k ps f i t) as [[[?|?]|?|] ?];
      cbn [fst snd] in H, Hi; run;
      try (rewrite (Hi _ eq_refl) in H)
  end.

Lemma printBalance_obeys (env : Env) (cl : CommandLine) :
  exists ph, obeys (snd (printBalance env cl [])) ph.
Proof.
  unfold printBalance, drainPending. run.
  do 3 (fork; [|ends]).
  fork; [| |ends]; (fork; [|ends]); loop_obeys receivePendings_obeys; try ends; fork; ends.
Qed.

Lemma changeRepresentative_obeys (env : Env) (cl : CommandLine) :
  exists ph, obeys (snd (changeRepresentative env cl [])) ph.
Proof.
  unfold changeRepresentative. run.
  do 3 (fork; [|ends]).
  fork; [|ends|ends].
  do 3 (fork; [|ends]). fork; ends.
Qed.

Lemma sendFunds_obeys (env : Env) (cl : CommandLine) :
  exists ph, obeys (snd (sendFunds env cl [])) ph.
Proof.
  unfold sendFunds. run.
  do 3 (fork; [|ends]).
  fork.
  - fork; [|ends|ends]. do 3 (fork; [|ends]). fork; ends.
  - fork; [|fork; ends].
    fork; [|ends|ends]. do 3 (fork; [|ends]). fork; ends.
Qed.

(** C5. In the balance drain, the representative change and the send,
    every submit call comes immediately after a successful signature
    and a successful work request for the very block submitted, which
    carries both; a failed signature or a failed work request is the
    last event of the run, so the submit call is never reached then. *)
Theorem C5_submit_needs_signature_and_work (env : Env) (cl : CommandLine) :
  submit_guarded (snd (printBalance env cl [])) /\
  submit_guarded (snd (changeRepresentative env cl [])) /\
  submit_guarded (snd (sendFunds env cl [])).
Proof.
  destruct (printBalance_obeys env cl) as [ph1 H1].
  destruct (changeRepresentative_obeys env cl) as [ph2 H2].
  destruct (sendFunds_obeys env cl) as [ph3 H3].
  repeat split; eapply obeys_guarded; eassumption.
Qed.

Lemma C5_submit_needs_signature_and_work_witness :
  let env := stub (inr ErrAccountNotFound) [X_transfer] None "y" in
  let tr := snd (printBalance env balance_line []) in
  exists pre' b0 sig w,
    firstn 8 tr
    = pre' ++ [Signed b0 (inl sig);
               WorkFetched (Block.with_Signature b0 sig) (inl w)] /\
    nth_error tr 8
    = Some (Submitted (Block.with_Work (Block.with_Signature b0 sig) w) None).
Proof.
  intros env tr.
  destruct (C5_submit_needs_signature_and_work env balance_line)
    as [[Hsubmit _] _].
  destruct (Hsubmit
              (firstn 8 tr)
              (Block.mk Open "nano_me" None "nano_rep"
                        "1025000000000000000000000000" "hx"
                        (Some "sig") (Some "work"))
              None (skipn 9 tr) eq_refl)
    as (pre' & b0 & sig & w & Hpre & Hb & _).
  exists pre', b0, sig, w. split; [exact Hpre|].
  rewrite <- Hb. reflexivity.
Defined.

(** ** The confirmation gate of a send *)

Ltac no_calls := cbn [snd]; reflexivity.

Ltac confirmed_first cl H :=
  right;
  match goal with
  | |- context [SeedRead ?r] =>
      exists [SeedRead r; Prompted (Arg cl 1) (Arg cl 2)]
  end;
  do 2 eexists; split;
  [ cbn [snd]; rewrite <- ?app_assoc; cbn [app]; reflexivity
  | split; [exact H|reflexivity] ].

(** C6. In a send with the force flag set no confirmation is read.
    Without it, a Ledger Client call is made only after an affirmative
    confirmation has been read; and when the answer is not affirmative
    the send ends without success and without a single Ledger Client
    call. *)
Theorem C6_send_confirmation_gate (env : Env) (cl : CommandLine) :
  (yFlag cl = true -> confirmations (snd (sendFunds env cl [])) = []) /\
  (yFlag cl = false ->
   let tr := snd (sendFunds env cl []) in
   (ledger_calls tr = [] \/
    exists pre answer post,
      tr = pre ++ ConfirmationRead answer :: post /\
      affirmative env answer = true /\
      ledger_calls pre = []) /\
   ((forall h, affirmative env (confirmation env h) = false) ->
    ledger_calls tr = [] /\ fst (sendFunds env cl []) <> Ret None)).
Proof.
  split; intros Hy.
  - unfold sendFunds. run. rewrite Hy. run.
    do 3 (fork; [|no_calls]).
    fork; [|no_calls|no_calls].
    do 3 (fork; [|no_calls]). fork; no_calls.
  - split.
    + unfold sendFunds. run. rewrite Hy. run.
      do 3 (fork; [|left; no_calls]).
      fork; [|left; fork; no_calls].
      fork; [|confirmed_first cl Heqb|confirmed_first cl Heqb].
      do 3 (fork; [|confirmed_first cl Heqb]).
      fork; confirmed_first cl Heqb.
    + intros Hno. unfold sendFunds. run. rewrite Hy. run.
      do 3 (fork; [|split; [no_calls|discriminate]]).
      rewrite Hno. fork; (split; [no_calls|discriminate]).
Qed.

Lemma C6_send_confirmation_gate_witness :
  let asked := mkCommandLine false false 0 ["send"; "1"; "nano_you"] in
  let forced := mkCommandLine false true 0 ["send"; "1"; "nano_you"] in
  let env := stub (inl opened_account) [] None "n" in
  (snd (sendFunds env asked [])
   = [SeedRead (inl "5EED"); Prompted "1" "nano_you"; ConfirmationRead "n"] /\
   ledger_calls (snd (sendFunds env asked [])) = [] /\
   fst (sendFunds env asked []) <> Ret None)
  /\
  (fst (sendFunds env forced []) = Ret None /\
   confirmations (snd (sendFunds env forced [])) = []).
Proof.
  intros asked forced env. split.
  - split; [reflexivity|].
    destruct (C6_send_confirmation_gate env asked) as [_ Hask].
    destruct (Hask eq_refl) as [_ Hdeclined].
    apply Hdeclined. reflexivity.
  - split; [reflexivity|].
    destruct (C6_send_confirmation_gate env forced) as [Hforced _].
    apply Hforced. reflexivity.
Defined.

(** ** Dispatch and exit status *)

Ltac which_command :=
  cbn [first_byte]; run;
  repeat match goal with
    | |- context [String.eqb ?a ?b] =>
        let v := eval vm_compute in (String.eqb a b) in
        change (String.eqb a b) with v
    end;
  cbv beta iota.

(** C10. The representative change and the send do not treat a missing
    account as a normal outcome: when the node reports the account as
    not found, the operation returns that very error, no block is
    constructed or submitted, and the process ends with status 2. *)
Theorem C10_change_and_send_need_an_opened_account
        (env : Env) (key : PrivateKey) (account : Account.t) :
  (forall h, node_account_info env h account = inr ErrAccountNotFound) ->
  (forall cl w,
      derives env cl key account ->
      Arg cl 0 = String "r" w ->
      fst (changeRepresentative env cl []) = Ret (Some ErrAccountNotFound) /\
      exit_status (fst (main env cl [])) = 2 /\
      constructed (snd (main env cl [])) = [] /\
      submit_calls (snd (main env cl [])) = [])
  /\
  (forall cl w,
      derives env cl key account ->
      Arg cl 0 = String "s" w ->
      (yFlag cl = true \/ forall h, affirmative env (confirmation env h) = true) ->
      fst (sendFunds env cl []) = Ret (Some ErrAccountNotFound) /\
      exit_status (fst (main env cl [])) = 2 /\
      constructed (snd (main env cl [])) = [] /\
      submit_calls (snd (main env cl [])) = []).
Proof.
  intros Hinfo. split.
  - intros cl w (seed & Hseed & Hkey & Hacct) Harg.
    unfold main. rewrite Harg. which_command.
    unfold changeRepresentative, report. run.
    rewrite Hseed, Hkey, Hacct, Hinfo. run. repeat split.
  - intros cl w (seed & Hseed & Hkey & Hacct) Harg Hgo.
    unfold main. rewrite Harg. which_command.
    unfold sendFunds, report. run. rewrite Hseed, Hkey, Hacct. run.
    destruct Hgo as [Hy|Hyes].
    + rewrite Hy. run. rewrite Hinfo. run. repeat split.
    + destruct (yFlag cl); run; rewrite ?Hyes; run; rewrite Hinfo; run;
        repeat split.
Qed.

Lemma C10_change_and_send_need_an_opened_account_witness :
  let env := stub (inr ErrAccountNotFound) [] None "y" in
  let change := mkCommandLine false false 0 ["representative"; "nano_rep2"] in
  let send := mkCommandLine false false 0 ["send"; "1"; "nano_you"] in
  (fst (changeRepresentative env change []) = Ret (Some ErrAccountNotFound) /\
   exit_status (fst (main env change [])) = 2 /\
   constructed (snd (main env change [])) = [] /\
   submit_calls (snd (main env change [])) = [])
  /\
  (fst (sendFunds env send []) = Ret (Some ErrAccountNotFound) /\
   exit_status (fst (main env send [])) = 2 /\
   constructed (snd (main env send [])) = [] /\
   submit_calls (snd (main env send [])) = []).
Proof.
  intros env change send.
  destruct (C10_change_and_send_need_an_opened_account
              env 1 (Account.mk 1 "nano_me")) as [Hchange Hsend].
  - reflexivity.
  - split.
    + apply (Hchange change "epresentative").
      * apply (stub_derives _ _ _ _ 0).
      * reflexivity.
    + apply (Hsend send "end").
      * apply (stub_derives _ _ _ _ 0).
      * reflexivity.
      * right. reflexivity.
Defined.

Lemma command_word (cl : CommandLine) (c : ascii) (w : string) :
  Arg cl 0 = String c w ->
  exists rest, args cl = String c w :: rest /\
               NArg cl = Z.of_nat (S (List.length rest)).
Proof.
  unfold Arg, NArg. destruct (args cl) as [|a0 rest]; cbn [nth]; intros H.
  - discriminate H.
  - exists rest. subst a0. split; reflexivity.
Qed.

Lemma other_letter (c d : ascii) :
  c <> d -> String.eqb (String c "") (String d "") = false.
Proof.
  intros H. apply String.eqb_neq. congruence.
Qed.

Ltac count_args Hn rest :=
  cbn [List.length] in Hn;
  repeat match type of Hn with
    | S _ = S _ => apply eq_add_S in Hn
    | List.length ?l = O => destruct l; [|discriminate Hn]
    | List.length ?l = S _ => destruct l; [discriminate Hn|cbn [List.length] in Hn]
    end.

(** C9. Dispatch looks at the first byte of the first positional
    argument only: with [n], [a] or [b] and exactly one argument, with
    [r] and exactly two, or with [s] and exactly three, the run is the
    corresponding operation followed by the report of its error,
    whatever the rest of the word; with any other first byte the run is
    the usage text on the diagnostic stream and exit status 1. *)
Theorem C9_dispatch_on_first_byte
        (env : Env) (argv : list string) (cl : CommandLine)
        (c : ascii) (w : string) :
  flag.scan (ParseUint env) argv (mkCommandLine false false 0 []) = flag.Done cl ->
  vFlag cl = false ->
  Arg cl 0 = String c w ->
  let n := List.length (args cl) in
  (c = "n"%char -> n = 1%nat ->
   atto env argv [] = bind (printNewSeed env) (report env) []) /\
  (c = "a"%char -> n = 1%nat ->
   atto env argv [] = bind (printAddress env cl) (report env) []) /\
  (c = "b"%char -> n = 1%nat ->
   atto env argv [] = bind (printBalance env cl) (report env) []) /\
  (c = "r"%char -> n = 2%nat ->
   atto env argv [] = bind (changeRepresentative env cl) (report env) []) /\
  (c = "s"%char -> n = 3%nat ->
   atto env argv [] = bind (sendFunds env cl) (report env) []) /\
  (c <> "n"%char -> c <> "a"%char -> c <> "b"%char ->
   c <> "r"%char -> c <> "s"%char ->
   atto env argv [] = (Exit 1, [Stderr usage])).
Proof.
  intros Hscan Hv Harg n.
  destruct (command_word cl c w Harg) as (rest & Hargs & Hcount).
  assert (Hsome : (NArg cl <? 1) = false) by (apply Z.ltb_ge; lia).
  unfold atto, init, main, flag.Parse. rewrite Hscan. run.
  rewrite Hv, Hsome, Harg. cbn [first_byte]. run.
  subst n. rewrite Hargs.
  repeat split.
  1-5: intros -> Hn; count_args Hn rest; rewrite Hcount; which_command;
       match goal with
       | |- context [negb ?b] =>
           let v := eval vm_compute in (negb b) in change (negb b) with v
       end;
       cbv beta iota; rewrite Harg; which_command; reflexivity.
  intros H1 H2 H3 H4 H5.
  rewrite !other_letter by assumption. reflexivity.
Qed.

Lemma C9_dispatch_on_first_byte_witness :
  atto (stub (inr ErrAccountNotFound) [] None "y") ["bogus"] []
  = bind (printBalance (stub (inr ErrAccountNotFound) [] None "y")
                       (mkCommandLine false false 0 ["bogus"]))
         (report (stub (inr ErrAccountNotFound) [] None "y")) [].
Proof.
  pose proof (C9_dispatch_on_first_byte
                (stub (inr ErrAccountNotFound) [] None "y") ["bogus"]
                (mkCommandLine false false 0 ["bogus"]) "b"%char "ogus"
                eq_refl eq_refl eq_refl) as H.
  destruct H as (_ & _ & Hb & _).
  exact (Hb eq_refl eq_refl).
Defined.

Lemma letter_eqb (c d : ascii) :
  String.eqb (String c "") (String d "") = Ascii.eqb c d.
Proof.
  cbn [String.eqb]. destruct (Ascii.eqb c d); reflexivity.
Qed.

Lemma count_eqb (n : nat) (k : nat) :
  (Z.of_nat n =? Z.of_nat k) = Nat.eqb n k.
Proof.
  destruct (Nat.eqb_spec n k) as [->|H].
  - apply Z.eqb_refl.
  - apply Z.eqb_neq. lia.
Qed.

(** What a run with parsed flags and a non-empty command word does. *)
Lemma atto_command (env : Env) (argv : list string) (cl : CommandLine)
      (c : ascii) (w : string) :
  flag.scan (ParseUint env) argv (mkCommandLine false false 0 []) = flag.Done cl ->
  vFlag cl = false ->
  Arg cl 0 = String c w ->
  atto env argv []
  = if accepted_command c (List.length (args cl))
    then bind (operation env cl c) (report env) []
    else (Exit 1, [Stderr usage]).
Proof.
  intros Hscan Hv Harg.
  destruct (command_word cl c w Harg) as (rest & Hargs & Hcount).
  assert (Hsome : (NArg cl <? 1) = false) by (apply Z.ltb_ge; lia).
  unfold atto, init, main, flag.Parse. rewrite Hscan. run.
  rewrite Hv, Hsome, Harg. cbn [first_byte]. run.
  unfold accepted_command, operation, NArg.
  change 1 with (Z.of_nat 1). change 2 with (Z.of_nat 2).
  change 3 with (Z.of_nat 3).
  rewrite !count_eqb.
  change "n" with (String "n"%char ""). change "a" with (String "a"%char "").
  change "b" with (String "b"%char ""). change "r" with (String "r"%char "").
  change "s" with (String "s"%char "").
  rewrite !letter_eqb.
  destruct (if Ascii.eqb c "n" || Ascii.eqb c "a" || Ascii.eqb c "b"
            then Nat.eqb (List.length (args cl)) 1
            else if Ascii.eqb c "r" then Nat.eqb (List.length (args cl)) 2
                 else if Ascii.eqb c "s" then Nat.eqb (List.length (args cl)) 3
                      else false); cbn [negb]; run.
  - rewrite Harg. cbn [first_byte]. run. rewrite !letter_eqb. reflexivity.
  - reflexivity.
Qed.

(** C8, counterexample. A command line the flag package rejects ends the
    process with status 2, not 1, although nothing but its arguments is
    wrong and the network was not touched. *)
Lemma C8_undeclared_flag_exits_2 :
  let run := atto (stub (inr ErrAccountNotFound) [] None "y") ["-x"] [] in
  snd run = [FlagComplaint "-x"; Stderr usage] /\
  network_calls (snd run) = [] /\
  exit_status (fst run) = 2 /\
  exit_status (fst run) <> 1.
Proof.
  cbv zeta. repeat split. discriminate.
Qed.

(** An empty command word is not turned into a usage error either: the
    slice of its first byte panics. *)
Example empty_command_word_panics :
  atto (stub (inr ErrAccountNotFound) [] None "y") [""] [] = (Panicked, []).
Proof. reflexivity. Qed.

(** C8, amended. A command line that the flag package rejects ends the
    process with status 2, before anything else is done.  Once the flags
    are parsed: with [-v] set the version is printed and the process
    exits with status 0, nothing else being done; without positional
    argument, or with a non-empty command word whose first byte or
    number of arguments [init] does not accept, the usage text is
    written and the process exits with status 1, nothing else being
    done; with a non-empty command word that [init] accepts the
    operation runs, its success ends the process with status 0, and an
    error it returns is printed and ends the process with status 2. *)
Theorem C8_exit_status (env : Env) (argv : list string) :
  (forall s,
      flag.scan (ParseUint env) argv (mkCommandLine false false 0 []) = flag.Bad s ->
      atto env argv [] = (Exit 2, [FlagComplaint s; Stderr usage]))
  /\
  (forall cl,
      flag.scan (ParseUint env) argv (mkCommandLine false false 0 []) = flag.Done cl ->
      (vFlag cl = true ->
       atto env argv [] = (Exit 0, [Stdout ("1.3.0" ++ nl)%string])) /\
      (vFlag cl = false -> args cl = [] ->
       atto env argv [] = (Exit 1, [Stderr usage])) /\
      (forall c w,
          vFlag cl = false -> Arg cl 0 = String c w ->
          (accepted_command c (List.length (args cl)) = false ->
           atto env argv [] = (Exit 1, [Stderr usage])) /\
          (accepted_command c (List.length (args cl)) = true ->
           forall tr,
             (operation env cl c [] = (Ret None, tr) ->
              atto env argv [] = (Ret tt, tr) /\
              exit_status (fst (atto env argv [])) = 0) /\
             (forall e,
                 operation env cl c [] = (Ret (Some e), tr) ->
                 atto env argv []
                 = (Exit 2, tr ++ [Stderr ("Error: " ++ error_text env e ++ nl)%string])
                 /\ exit_status (fst (atto env argv [])) = 2)))).
Proof.
  split.
  - intros s Hscan. unfold atto, init, flag.Parse. rewrite Hscan. reflexivity.
  - intros cl Hscan. split; [|split].
    + intros Hv. unfold atto, init, flag.Parse. rewrite Hscan. run.
      rewrite Hv. reflexivity.
    + intros Hv Hnone. unfold atto, init, flag.Parse. rewrite Hscan. run.
      rewrite Hv. unfold NArg. rewrite Hnone. reflexivity.
    + intros c w Hv Harg.
      rewrite (atto_command env argv cl c w Hscan Hv Harg).
      split; intros Hok; rewrite Hok; [reflexivity|].
      intros tr. unfold bind.
      split; [intros Hrun|intros e Hrun]; rewrite Hrun; split; reflexivity.
Qed.

Lemma C8_exit_status_witness :
  let env := stub (inr ErrAccountNotFound) [] None "y" in
  atto env ["-a"; "7"; "bogus"; "extra"] [] = (Exit 1, [Stderr usage]) /\
  atto env ["-v"; "balance"] [] = (Exit 0, [Stdout ("1.3.0" ++ nl)%string]) /\
  atto env ["-a"; "x"; "balance"] []
  = (Exit 2, [FlagComplaint "-a"; Stderr usage]) /\
  exit_status (fst (atto env ["balance"] [])) = 0 /\
  exit_status (fst (atto env ["send"; "1"; "nano_you"] [])) = 2.
Proof.
  intros env. split; [|split; [|split; [|split]]].
  - destruct (C8_exit_status env ["-a"; "7"; "bogus"; "extra"]) as [_ H].
    destruct (H (mkCommandLine false false 7 ["bogus"; "extra"]) eq_refl)
      as (_ & _ & Hword).
    destruct (Hword "b"%char "ogus" eq_refl eq_refl) as [Hno _].
    exact (Hno eq_refl).
  - destruct (C8_exit_status env ["-v"; "balance"]) as [_ H].
    destruct (H (mkCommandLine true false 0 ["balance"]) eq_refl) as (Hv & _).
    exact (Hv eq_refl).
  - destruct (C8_exit_status env ["-a"; "x"; "balance"]) as [H _].
    exact (H "-a" eq_refl).
  - destruct (C8_exit_status env ["balance"]) as [_ H].
    destruct (H (mkCommandLine false false 0 ["balance"]) eq_refl)
      as (_ & _ & Hword).
    destruct (Hword "b"%char "alance" eq_refl eq_refl) as [_ Hyes].
    destruct (Hyes eq_refl
                [SeedRead (inl "5EED");
                 AccountInfoFetched (Account.mk 1 "nano_me") (inr ErrAccountNotFound);
                 PendingFetched (Account.mk 1 "nano_me") (inl []);
                 Stdout ("0.000" ++ nl)%string]) as [Hnil _].
    exact (proj2 (Hnil eq_refl)).
  - destruct (C8_exit_status env ["send"; "1"; "nano_you"]) as [_ H].
    destruct (H (mkCommandLine false false 0 ["send"; "1"; "nano_you"]) eq_refl)
      as (_ & _ & Hword).
    destruct (Hword "s"%char "end" eq_refl eq_refl) as [_ Hyes].
    destruct (Hyes eq_refl
                [SeedRead (inl "5EED"); Prompted "1" "nano_you";
                 ConfirmationRead "y";
                 AccountInfoFetched (Account.mk 1 "nano_me") (inr ErrAccountNotFound)])
      as [_ Herr].
    exact (proj2 (Herr ErrAccountNotFound eq_refl)).
Defined.

(** * Further properties of main.go *)

(** ** The shape of every drain *)

Ltac shape_stop :=
  eexists _, _; split; [apply f_equal2; [reflexivity|trace_done]|];
  cbn; repeat split; auto; try lia; try (intros ? ?; discriminate).

Ltac shape_step r Hrun :=
  rewrite Hrun; eexists r, _;
  split; [apply f_equal2; [reflexivity|trace_done]|];
  unfold stdout_writes, pending_fetches, constructed, submit_calls,
    submitted, done_lines in *;
  cbn; repeat split; auto; try lia;
  try (f_equal; auto; reflexivity);
  try (intros ? ?; f_equal; eauto).

Section EveryDrain.

Variable env : Env.
Variable account : Account.t.
Variable key : PrivateKey.

(** Whatever the outside world answers, the loop returns, writes nothing
    to the primary output and never asks for the pending list; it takes
    the transfers in order, constructs a block for the next one only
    after the block before it was accepted, and narrates "done" once per
    accepted block; when it completes, every transfer was submitted and
    accepted. *)
Lemma receivePendings_shape (ps : list Pending.t) :
  forall firstReceive info tr,
  exists r evs,
    receivePendings env account key ps firstReceive info tr = (Ret r, tr ++ evs) /\
    stdout_writes evs = [] /\
    pending_fetches evs = [] /\
    map Block.Link (constructed evs)
    = map Pending.Hash (firstn (List.length (constructed evs)) ps) /\
    map Block.bare (submit_calls evs)
    = firstn (List.length (submit_calls evs)) (constructed evs) /\
    submitted evs = firstn (List.length (submitted evs)) (submit_calls evs) /\
    (List.length (constructed evs) <= S (List.length (submit_calls evs)))%nat /\
    (List.length (submit_calls evs) <= S (List.length (submitted evs)))%nat /\
    List.length (done_lines evs) = List.length (submitted evs) /\
    (forall info', r = inl info' ->
                   List.length (submitted evs) = List.length ps).
Proof.
  induction ps as [|p ps IH]; intros fr info tr; cbn [receivePendings]; run.
  - exists (inl info), []. rewrite app_nil_r. cbn. repeat split; auto.
  - fork; [|shape_stop].
    destruct fr; run.
    + do 2 (fork; [|shape_stop]). fork; [shape_stop|].
      match goal with
      | |- context [receivePendings _ _ _ _ _ ?i ?t] =>
          destruct (IH false i t)
            as (r & evs & Hrun & Hout & Hpf & Hcs & Hsc & Hsb & Hn1 & Hn2 & Hd & Hall)
      end.
      shape_step r Hrun.
    + cbn [AccountInfo.Balance]. fork; [|shape_stop].
      do 2 (fork; [|shape_stop]). fork; [shape_stop|].
      match goal with
      | |- context [receivePendings _ _ _ _ _ ?i ?t] =>
          destruct (IH false i t)
            as (r & evs & Hrun & Hout & Hpf & Hcs & Hsc & Hsb & Hn1 & Hn2 & Hd & Hall)
      end.
      shape_step r Hrun.
Qed.

End EveryDrain.

Ltac balance_stop :=
  solve [ eexists _, _; split; [reflexivity|];
          cbn; repeat split; auto; try lia; try discriminate; try congruence ].

(** The same for the whole balance operation: it returns; the pending
    list is asked for at most once; the balance is written to the
    primary output as the very last thing and only on success. *)
Lemma printBalance_shape (env : Env) (cl : CommandLine) :
  exists r tr,
    printBalance env cl [] = (Ret r, tr) /\
    (r = None ->
     exists pre line, tr = pre ++ [Stdout line] /\ stdout_writes pre = []) /\
    (r <> None -> stdout_writes tr = []) /\
    (List.length (pending_fetches tr) <= 1)%nat /\
    map Block.Link (constructed tr)
    = map Pending.Hash
          (firstn (List.length (constructed tr)) (hd [] (pending_lists tr))) /\
    map Block.bare (submit_calls tr)
    = firstn (List.length (submit_calls tr)) (constructed tr) /\
    submitted tr = firstn (List.length (submitted tr)) (submit_calls tr) /\
    (List.length (constructed tr) <= S (List.length (submit_calls tr)))%nat /\
    (List.length (submit_calls tr) <= S (List.length (submitted tr)))%nat /\
    List.length (done_lines tr) = List.length (submitted tr) /\
    (r = None ->
     List.length (pending_lists tr) = 1%nat /\
     List.length (submitted tr) = List.length (hd [] (pending_lists tr))).
Proof.
  unfold printBalance, drainPending. run.
  do 3 (fork; [|balance_stop]).
  fork; [| |balance_stop]; (fork; [|balance_stop]);
    match goal with
    | |- context [receivePendings ?e ?a ?k ?ps ?f ?i ?t] =>
        destruct (receivePendings_shape e a k ps f i t)
          as (r & evs & Hrun & Hout & Hpf & Hcs & Hsc & Hsb & Hn1 & Hn2 & Hd & Hall)
    end;
    rewrite Hrun; run; destruct r as [info'|e]; run; try fork;
    (eexists _, _; split; [reflexivity|]);
    unfold stdout_writes, pending_lists, pending_fetches, constructed,
      submit_calls, submitted, done_lines in *;
    rewrite ?pick_app; cbn [pick app]; rewrite ?Hout, ?Hpf, ?app_nil_r;
    cbn [flat_map hd app List.length];
    repeat match goal with |- _ /\ _ => split end;
    auto; try discriminate; try congruence.
  all: try (intros _; eexists (_ :: _ :: _ :: _), _;
            split; [reflexivity|cbn [pick]; assumption]).
  all: intros _; split; [reflexivity|eauto].
Qed.

(** X1. The balance operation always returns.  It writes to the primary
    output only when it succeeds: then the balance line is the last
    thing it does and its only write there, the pending list was
    obtained, and every transfer of that list was submitted and
    accepted.  When it returns an error, nothing was written to the
    primary output. *)
Theorem X1_balance_printed_last_and_only_on_success
        (env : Env) (cl : CommandLine) :
  exists r tr,
    printBalance env cl [] = (Ret r, tr) /\
    (r = None ->
     (exists pre line, tr = pre ++ [Stdout line] /\ stdout_writes pre = []) /\
     List.length (pending_lists tr) = 1%nat /\
     List.length (submitted tr) = List.length (hd [] (pending_lists tr))) /\
    (r <> None -> stdout_writes tr = []).
Proof.
  destruct (printBalance_shape env cl)
    as (r & tr & Hrun & Hlast & Hnone & _ & _ & _ & _ & _ & _ & _ & Hall).
  exists r, tr. split; [exact Hrun|]. split; [|exact Hnone].
  intros Hr. split; [exact (Hlast Hr)|exact (Hall Hr)].
Qed.


Ltac count_done := cbn [snd]; cbn; reflexivity.

(** X3. In the balance drain, the representative change and the send,
    the closing "done" of the narration is written exactly once per
    block the node accepted, whatever the outside world answers: never
    for a block that was not submitted or that the node refused. *)
Theorem X3_done_means_accepted (env : Env) (cl : CommandLine) :
  List.length (done_lines (snd (printBalance env cl [])))
  = List.length (submitted (snd (printBalance env cl []))) /\
  List.length (done_lines (snd (changeRepresentative env cl [])))
  = List.length (submitted (snd (changeRepresentative env cl []))) /\
  List.length (done_lines (snd (sendFunds env cl [])))
  = List.length (submitted (snd (sendFunds env cl []))).
Proof.
  split; [|split].
  - destruct (printBalance_shape env cl)
      as (r & tr & Hrun & _ & _ & _ & _ & _ & _ & _ & _ & Hd & _).
    rewrite Hrun. exact Hd.
  - unfold changeRepresentative. run.
    do 3 (fork; [|count_done]).
    fork; [|count_done|count_done].
    do 3 (fork; [|count_done]). fork; count_done.
  - unfold sendFunds. run.
    do 3 (fork; [|count_done]).
    fork.
    + fork; [|count_done|count_done].
      do 3 (fork; [|count_done]). fork; count_done.
    + fork; [|fork; count_done].
      fork; [|count_done|count_done].
      do 3 (fork; [|count_done]). fork; count_done.
Qed.

(** ** Every run of the other operations *)

(** Case analysis on every answer of the outside world, in turn. *)
Ltac explore :=
  run;
  repeat first
    [ fork
    | match goal with
      | |- context [random_seed ?e ?h] => destruct (random_seed e h) eqn:?
      end; run ].

Ltac settle :=
  cbn [fst snd]; cbn;
  repeat split; auto; try discriminate; try congruence; try lia.



Lemma operation_never_panics (env : Env) (cl : CommandLine) (c : ascii) :
  fst (operation env cl c []) <> Panicked.
Proof.
  unfold operation.
  destruct (Ascii.eqb c "n"); [unfold printNewSeed; explore; settle|].
  destruct (Ascii.eqb c "a"); [unfold printAddress; explore; settle|].
  destruct (Ascii.eqb c "b").
  { destruct (printBalance_shape env cl) as (r & tr & Hrun & _).
    rewrite Hrun. discriminate. }
  destruct (Ascii.eqb c "r"); [unfold changeRepresentative; explore; settle|].
  destruct (Ascii.eqb c "s"); [unfold sendFunds; explore; settle|].
  discriminate.
Qed.

Lemma operation_offline (env : Env) (cl : CommandLine) (c : ascii) :
  Ascii.eqb c "b" = false -> Ascii.eqb c "r" = false -> Ascii.eqb c "s" = false ->
  ledger_calls (snd (operation env cl c [])) = [].
Proof.
  intros Hb Hr Hs. unfold operation. rewrite Hb, Hr, Hs.
  destruct (Ascii.eqb c "n"); [unfold printNewSeed; explore; settle|].
  destruct (Ascii.eqb c "a"); [unfold printAddress; explore; settle|].
  reflexivity.
Qed.

(** What the report of the error adds to the log of an operation. *)
Lemma report_trace (env : Env) (m : M (option error)) (tr : Trace) :
  snd (bind m (report env) tr)
  = snd (m tr)
    ++ match fst (m tr) with
       | Ret (Some e) => [Stderr ("Error: " ++ error_text env e ++ nl)%string]
       | _ => []
       end.
Proof.
  unfold bind, report. destruct (m tr) as [[[e|]| |] t]; cbn; 
    rewrite ?app_nil_r; reflexivity.
Qed.


(** The three ways a run ends before [main] is reached with a command
    word. *)
Lemma atto_cases (env : Env) (argv : list string) :
  (exists cl c w,
      flag.scan (ParseUint env) argv (mkCommandLine false false 0 []) = flag.Done cl /\
      vFlag cl = false /\ Arg cl 0 = String c w)
  \/ (exists cl,
         flag.scan (ParseUint env) argv (mkCommandLine false false 0 []) = flag.Done cl /\
         vFlag cl = false /\ args cl <> [] /\ Arg cl 0 = "" /\
         atto env argv [] = (Panicked, []))
  \/ (exists code line,
         atto env argv [] = (Exit code, [Stderr line]) /\ code <> 0)
  \/ (exists s,
         atto env argv [] = (Exit 2, [FlagComplaint s; Stderr usage]))
  \/ atto env argv [] = (Exit 0, [Stderr usage])
  \/ atto env argv [] = (Exit 0, [Stdout ("1.3.0" ++ nl)%string]).
Proof.
  unfold atto, init, flag.Parse.
  destruct (flag.scan (ParseUint env) argv (mkCommandLine false false 0 []))
    as [cl| |s] eqn:Hscan; run.
  - destruct (vFlag cl) eqn:Hv; [do 5 right; reflexivity|].
    unfold NArg, Arg. destruct (args cl) as [|a rest] eqn:Hargs.
    + right; right; left. exists 1, usage. split; [reflexivity|discriminate].
    + cbn [List.length nth]. 
      replace (Z.of_nat (S (List.length rest)) <? 1) with false
        by (symmetry; apply Z.ltb_ge; lia).
      destruct a as [|c w].
      * right; left. exists cl. rewrite Hargs.
        repeat split; auto. discriminate.
      * left. exists cl, c, w. rewrite Hargs. auto.
  - do 4 right. left. reflexivity.
  - do 3 right. left. exists s. reflexivity.
Qed.

(** X4. Creating a seed and showing an address stay off the network in
    every world: neither operation queries the node, constructs, signs
    or submits a block, or asks the user anything.  Creating a seed
    does not read the standard input; showing an address reads the seed
    exactly once. *)
Theorem X4_new_and_address_stay_offline (env : Env) (cl : CommandLine) :
  let new := snd (printNewSeed env []) in
  let address := snd (printAddress env cl []) in
  ledger_calls new = [] /\ prompts new = [] /\ confirmations new = [] /\
  seed_reads new = [] /\
  ledger_calls address = [] /\ prompts address = [] /\
  confirmations address = [] /\
  List.length (seed_reads address) = 1%nat.
Proof.
  cbv zeta. unfold printNewSeed, printAddress.
  repeat match goal with |- _ /\ _ => split end; explore; settle.
Qed.




(** X7. Whatever the command line and the outside world: a run that
    calls the ledger client at all (a query of the node, a block
    constructed, signed, given work or submitted) is a run of the
    balance, representative or send command, with its flags parsed and
    the number of arguments that [init] accepts for it.  Every other
    run, the version, the usage errors, a new seed and an address
    included, leaves the ledger alone. *)
Theorem X7_ledger_only_for_balance_representative_send
        (env : Env) (argv : list string) :
  ledger_calls (snd (atto env argv [])) <> [] ->
  exists cl c w,
    flag.scan (ParseUint env) argv (mkCommandLine false false 0 []) = flag.Done cl /\
    vFlag cl = false /\
    Arg cl 0 = String c w /\
    (c = "b"%char \/ c = "r"%char \/ c = "s"%char) /\
    accepted_command c (List.length (args cl)) = true.
Proof.
  intros Hcalls.
  destruct (atto_cases env argv)
    as [(cl & c & w & Hscan & Hv & Harg)
       |[(cl & _ & _ & _ & _ & Hrun)
        |[(code & line & Hrun & _)|[(s & Hrun)|[Hrun|Hrun]]]]];
    try (rewrite Hrun in Hcalls; exfalso; apply Hcalls; reflexivity).
  exists cl, c, w. repeat split; auto.
  - destruct (Ascii.eqb_spec c "b") as [|Hb]; [auto|].
    destruct (Ascii.eqb_spec c "r") as [|Hr]; [auto|].
    destruct (Ascii.eqb_spec c "s") as [|Hs]; [auto|].
    exfalso. apply Hcalls.
    rewrite (atto_command env argv cl c w Hscan Hv Harg).
    destruct (accepted_command c (List.length (args cl))); [|reflexivity].
    rewrite report_trace. unfold ledger_calls. rewrite filter_app.
    fold (ledger_calls (snd (operation env cl c []))).
    rewrite operation_offline by (apply Ascii.eqb_neq; assumption).
    destruct (fst (operation env cl c [])) as [[e|]| |]; reflexivity.
  - destruct (accepted_command c (List.length (args cl))) eqn:Hok; [reflexivity|].
    exfalso. apply Hcalls.
    rewrite (atto_command env argv cl c w Hscan Hv Harg), Hok. reflexivity.
Qed.

Lemma X7_ledger_only_for_balance_representative_send_witness :
  exists cl c w,
    flag.scan sample_ParseUint ["-y"; "send"; "1"; "nano_you"]
              (mkCommandLine false false 0 []) = flag.Done cl /\
    vFlag cl = false /\
    Arg cl 0 = String c w /\
    (c = "b"%char \/ c = "r"%char \/ c = "s"%char) /\
    accepted_command c (List.length (args cl)) = true.
Proof.
  apply (X7_ledger_only_for_balance_representative_send
           (stub (inl opened_account) [] None "y")
           ["-y"; "send"; "1"; "nano_you"]).
  vm_compute. discriminate.
Defined.

(** X8. The program panics in exactly one situation: the flags parse,
    the version is not asked for, and the first positional argument is
    the empty string.  The slice of its first byte in [init] then ends
    the run before anything was read or written.  No operation panics,
    whatever the outside world answers. *)
Theorem X8_panics_exactly_on_an_empty_command_word
        (env : Env) (argv : list string) :
  (fst (atto env argv []) = Panicked <->
   exists cl,
     flag.scan (ParseUint env) argv (mkCommandLine false false 0 []) = flag.Done cl /\
     vFlag cl = false /\ args cl <> [] /\ Arg cl 0 = "") /\
  (fst (atto env argv []) = Panicked -> snd (atto env argv []) = []).
Proof.
  assert (Hmain : forall cl c w,
             flag.scan (ParseUint env) argv (mkCommandLine false false 0 [])
             = flag.Done cl ->
             vFlag cl = false -> Arg cl 0 = String c w ->
             fst (atto env argv []) <> Panicked).
  { intros cl c w Hscan Hv Harg.
    rewrite (atto_command env argv cl c w Hscan Hv Harg).
    destruct (accepted_command c (List.length (args cl))); [|discriminate].
    pose proof (operation_never_panics env cl c) as Hop.
    unfold bind, report.
    destruct (operation env cl c []) as [[[e|]| |] t]; cbn in *;
      try discriminate. congruence. }
  assert (Hback : (exists cl,
             flag.scan (ParseUint env) argv (mkCommandLine false false 0 [])
             = flag.Done cl /\
             vFlag cl = false /\ args cl <> [] /\ Arg cl 0 = "") ->
             atto env argv [] = (Panicked, [])).
  { intros (cl & Hscan & Hv & Hargs & Harg).
    unfold atto, init, flag.Parse. rewrite Hscan. run.
    rewrite Hv. unfold NArg.
    destruct (args cl) as [|a rest] eqn:E; [congruence|].
    cbn [List.length].
    replace (Z.of_nat (S (List.length rest)) <? 1) with false
      by (symmetry; apply Z.ltb_ge; lia).
    rewrite Harg. reflexivity. }
  split.
  - split; [|intros H; rewrite (Hback H); reflexivity].
    intros Hp.
    destruct (atto_cases env argv)
      as [(cl & c & w & Hscan & Hv & Harg)
         |[(cl & Hscan & Hv & Hargs & Harg & Hrun)
          |[(code & line & Hrun & _)|[(s & Hrun)|[Hrun|Hrun]]]]];
      try (rewrite Hrun in Hp; discriminate Hp).
    + destruct (Hmain cl c w Hscan Hv Harg Hp).
    + exists cl. auto.
  - intros Hp.
    destruct (atto_cases env argv)
      as [(cl & c & w & Hscan & Hv & Harg)
         |[(cl & Hscan & Hv & Hargs & Harg & Hrun)
          |[(code & line & Hrun & _)|[(s & Hrun)|[Hrun|Hrun]]]]];
      try (rewrite Hrun in Hp; discriminate Hp).
    + destruct (Hmain cl c w Hscan Hv Harg Hp).
    + rewrite Hrun. reflexivity.
Qed.

(** X9. [init] returns in exactly one situation, and then without
    having written anything: the flags parse, the version is not asked
    for, and the first positional argument starts with a command letter
    that comes with the number of arguments this letter requires.  So
    [main] and the operations can rely on their arguments being
    present. *)
Theorem X9_init_returns_only_for_an_accepted_command
        (env : Env) (argv : list string) (cl : CommandLine) (tr : Trace) :
  init env argv [] = (Ret cl, tr) <->
  (tr = [] /\
   flag.scan (ParseUint env) argv (mkCommandLine false false 0 []) = flag.Done cl /\
   vFlag cl = false /\
   exists c w, Arg cl 0 = String c w /\
               accepted_command c (List.length (args cl)) = true).
Proof.
  unfold init, flag.Parse.
  destruct (flag.scan (ParseUint env) argv (mkCommandLine false false 0 []))
    as [cl0| |s] eqn:Hscan; run;
    [|split; [discriminate|intros (_ & H & _); discriminate H]..].
  destruct (vFlag cl0) eqn:Hv.
  { split; [discriminate|]. intros (_ & H & Hv' & _).
    injection H as ->. congruence. }
  destruct (Arg cl0 0) as [|c w] eqn:Harg.
  { destruct (NArg cl0 <? 1); (split; [discriminate|]).
    all: intros (_ & H & _ & c & w & Hw & _); injection H as ->; congruence. }
  destruct (command_word cl0 c w Harg) as (rest & Hargs & Hcount).
  replace (NArg cl0 <? 1) with false by (symmetry; apply Z.ltb_ge; lia).
  cbn [first_byte]. run.
  unfold NArg.
  change 1 with (Z.of_nat 1). change 2 with (Z.of_nat 2).
  change 3 with (Z.of_nat 3).
  rewrite !count_eqb.
  change "n" with (String "n"%char ""). change "a" with (String "a"%char "").
  change "b" with (String "b"%char ""). change "r" with (String "r"%char "").
  change "s" with (String "s"%char "").
  rewrite !letter_eqb.
  fold (accepted_command c (List.length (args cl0))).
  destruct (accepted_command c (List.length (args cl0))) eqn:Hok; cbn [negb].
  - split.
    + intros H. injection H as <- <-. repeat split; auto. exists c, w. auto.
    + intros (-> & H & _). injection H as ->. reflexivity.
  - split; [discriminate|].
    intros (_ & H & _ & c' & w' & Hw & Hok'). injection H as ->. 
    rewrite Harg in Hw. injection Hw as <- <-. congruence.
Qed.



(** X11. Without a key there is no action.  When the seed cannot be
    read, or no private key or no account can be derived from it, each
    of the four operations that need a key returns that very error,
    and reading the seed is all it has done: nothing is written, the
    user is not asked, and the node is not called. *)
Theorem X11_without_a_key_nothing_is_done
        (env : Env) (cl : CommandLine) (e : error) :
  deriveContext env cl (stdin_seed env []) = inr e ->
  let stopped := (Ret (Some e), [SeedRead (stdin_seed env [])]) in
  printAddress env cl [] = stopped /\
  printBalance env cl [] = stopped /\
  changeRepresentative env cl [] = stopped /\
  sendFunds env cl [] = stopped.
Proof.
  unfold deriveContext, printAddress, printBalance, changeRepresentative,
    sendFunds.
  intros H. cbv zeta. run. cbn [app].
  destruct (stdin_seed env []) as [seed|e0]; run.
  - destruct (NewPrivateKey env seed (uint32 (accountIndexFlag cl)))
      as [key|e1]; run.
    + destruct (NewAccount env key) as [account|e2]; [discriminate H|].
      injection H as ->. repeat split; reflexivity.
    + injection H as ->. repeat split; reflexivity.
  - injection H as ->. repeat split; reflexivity.
Qed.

Lemma X11_without_a_key_nothing_is_done_witness :
  let env := stub_with_seed (inr (Err "no seed on standard input"))
                            (stub (inl opened_account) [X_transfer] None "y") in
  let cl := mkCommandLine false true 0 ["send"; "1"; "nano_you"] in
  let stopped := (Ret (Some (Err "no seed on standard input")),
                  [SeedRead (inr (Err "no seed on standard input"))]) in
  printAddress env cl [] = stopped /\
  printBalance env cl [] = stopped /\
  changeRepresentative env cl [] = stopped /\
  sendFunds env cl [] = stopped.
Proof.
  exact (X11_without_a_key_nothing_is_done
           (stub_with_seed (inr (Err "no seed on standard input"))
                           (stub (inl opened_account) [X_transfer] None "y"))
           (mkCommandLine false true 0 ["send"; "1"; "nano_you"])
           (Err "no seed on standard input") eq_refl).
Defined.

(** X12. The representative change and the send handle one block at
    most, in every world: the seed is read once, the account state is
    asked for once at most and the pending list never, one constructor
    is called at most, and the only block that can be handed to the
    node is the block that constructor returned, with a signature and
    work added.  Neither operation receives pending transfers. *)
Theorem X12_change_and_send_handle_one_block_at_most
        (env : Env) (cl : CommandLine) :
  one_block_at_most (snd (changeRepresentative env cl [])) /\
  one_block_at_most (snd (sendFunds env cl [])).
Proof.
  unfold one_block_at_most, changeRepresentative, sendFunds.
  repeat match goal with |- _ /\ _ => split end; explore; settle.
Qed.

Ltac each_call :=
  cbn [fst snd]; cbn;
  let r := fresh "r" in
  let Hin := fresh "Hin" in
  intros r Hin;
  first
    [ destruct Hin as [<-|[]];
      repeat match goal with |- _ /\ _ => split end;
      first [ reflexivity
            | eexists; split; [reflexivity|symmetry; eassumption] ]
    | destruct Hin ].

(** X13. The send builds what it showed.  In every run of the send in
    which the constructor is called, the block is built from the one
    account state the node returned and from the second and third
    positional arguments, and unless the send was forced these are the
    very amount and recipient that were presented to the user, once.
    The representative change builds its block from the one account
    state the node returned and the second positional argument. *)
Theorem X13_send_builds_what_it_showed (env : Env) (cl : CommandLine) :
  (forall r,
      In r (constructor_calls (snd (sendFunds env cl []))) ->
      (exists info,
          account_infos (snd (sendFunds env cl [])) = [info] /\
          r = build_send env info (Arg cl 1) (Arg cl 2)) /\
      prompts (snd (sendFunds env cl []))
      = if yFlag cl then [] else [(Arg cl 1, Arg cl 2)]) /\
  (forall r,
      In r (constructor_calls (snd (changeRepresentative env cl []))) ->
      exists info,
        account_infos (snd (changeRepresentative env cl [])) = [info] /\
        r = build_change env info (Arg cl 1)).
Proof.
  unfold sendFunds, changeRepresentative.
  split; explore; each_call.
Qed.

(** ** Draining an opened account, and a malformed amount *)

(** The loop over a list continues with the rest of the list once its
    first part went through. *)
Lemma receivePendings_app (env : Env) (account : Account.t) (key : PrivateKey)
      (ps rest : list Pending.t) :
  forall firstReceive info tr info' tr',
    receivePendings env account key ps firstReceive info tr
    = (Ret (inl info'), tr') ->
    receivePendings env account key (ps ++ rest) firstReceive info tr
    = receivePendings env account key rest
        (match ps with [] => firstReceive | _ => false end) info' tr'.
Proof.
  induction ps as [|p ps IH]; intros firstReceive info tr info' tr'.
  - cbn [receivePendings app]. run. intros H. injection H as <- <-. reflexivity.
  - cbn [receivePendings app]. run.
    fork; [|discriminate].
    destruct firstReceive; run;
      repeat (fork; try discriminate);
      intros H; rewrite (IH _ _ _ _ _ H); destruct ps; reflexivity.
Qed.

(** A loop that went through called no constructor in vain. *)
Lemma receivePendings_success (env : Env) (account : Account.t)
      (key : PrivateKey) (ps : list Pending.t) :
  forall firstReceive info tr info' tr',
    receivePendings env account key ps firstReceive info tr
    = (Ret (inl info'), tr') ->
    exists evs, tr' = tr ++ evs /\
                constructor_calls evs = map inl (constructed evs).
Proof.
  induction ps as [|p ps IH]; intros firstReceive info tr info' tr'.
  - cbn [receivePendings]. run. intros H. injection H as <- <-.
    exists []. split; [symmetry; apply app_nil_r|reflexivity].
  - cbn [receivePendings]. run.
    fork; [|discriminate].
    destruct firstReceive; run;
      repeat (fork; try discriminate);
      intros H; destruct (IH _ _ _ _ _ H) as (evs & -> & Hcalls);
      eexists; (split; [rewrite <- !app_assoc; cbn [app]; reflexivity|]);
      unfold constructor_calls, constructed in *; cbn [pick map];
      rewrite Hcalls; reflexivity.
Qed.

Lemma drained_constructor_calls (tr evs evs' : Trace) (before : list Pending.t) :
  tr ++ evs = tr ++ evs' ->
  constructor_calls evs' = map inl (constructed evs') ->
  constructed evs = map Block.bare (submitted evs) ->
  claims (submitted evs) before ->
  List.length (constructor_calls evs) = List.length before.
Proof.
  intros Heq Hcalls Hco Hcl. apply app_inv_head in Heq. subst evs'.
  rewrite Hcalls, length_map, Hco, length_map.
  apply (Forall2_length Hcl).
Qed.

(** X14. Draining an account that was opened before: with the account
    state [info] of balance [b], [N] pending transfers of amounts
    [a1..aN] and no failing step, the balance operation succeeds; the
    blocks accepted are [N] Receive blocks, one per transfer and in
    order, the first chained to the frontier the node reported and each
    next one to the block before it; and the balance printed is the
    rendering of [b + a1 + ... + aN]. *)
Theorem X14_drain_opened_account
        (env : Env) (cl : CommandLine) (key : PrivateKey) (account : Account.t)
        (info : AccountInfo.t) (balance : Z)
        (ps : list Pending.t) (amounts : list Z) :
  derives env cl key account ->
  (forall h, node_account_info env h account = inl info) ->
  big.SetString10 (AccountInfo.Balance info) = Some balance ->
  (forall h, node_pending env h account = inl ps) ->
  amounts_of ps amounts ->
  signs env key -> works env -> accepts env ->
  exists tr,
    printBalance env cl [] = (Ret None, tr) /\
    submit_calls tr = submitted tr /\
    claims (submitted tr) ps /\
    all_receives (submitted tr) /\
    chained env (AccountInfo.Frontier info) (submitted tr) /\
    stdout_writes tr = [(rawToXNO env (balance + total amounts) ++ nl)%string].
Proof.
  intros (seed & Hseed & Hkey & Hacct) Hinfo Hbal Hpend Hamounts
         Hsign Hwork Hsubmit.
  unfold printBalance, drainPending. run.
  rewrite Hseed, Hkey, Hacct, Hinfo. run. rewrite Hpend. run.
  match goal with
  | |- context [receivePendings _ _ _ _ _ ?i ?t] =>
      destruct (receivePendings_opened env account key Hsign Hwork Hsubmit
                  ps amounts Hamounts i balance t Hbal) as
        (info' & evs & Hrun & Hb & Hcl & Hk & Hch & Hsc & Hco & Hout)
  end.
  rewrite Hrun, Hb. eexists. split; [reflexivity|].
  unfold stdout_writes, submitted, submit_calls, all_receives in *.
  rewrite !pick_app, Hout, Hsc. cbn [pick app]. rewrite !app_nil_r.
  repeat split; auto.
Qed.

Lemma X14_drain_opened_account_witness :
  exists tr,
    printBalance (stub (inl opened_account) [X_transfer; Y_transfer] None "y")
                 balance_line [] = (Ret None, tr) /\
    submit_calls tr = submitted tr /\
    claims (submitted tr) [X_transfer; Y_transfer] /\
    all_receives (submitted tr) /\
    chained (stub (inl opened_account) [X_transfer; Y_transfer] None "y")
            (Some "f0") (submitted tr) /\
    stdout_writes tr
    = [(sample_rawToXNO
          (5 + total [1025000000000000000000000000;
                      100000000000000000000000000]) ++ nl)%string].
Proof.
  apply (X14_drain_opened_account
           (stub (inl opened_account) [X_transfer; Y_transfer] None "y")
           balance_line 1 (Account.mk 1 "nano_me") opened_account 5
           [X_transfer; Y_transfer]
           [1025000000000000000000000000; 100000000000000000000000000]).
  - apply (stub_derives _ _ _ _ 0).
  - reflexivity.
  - reflexivity.
  - reflexivity.
  - repeat constructor.
  - apply stub_signs.
  - apply stub_works.
  - apply stub_accepts.
Defined.

(** X15. A pending amount that is not a decimal integer stops the
    drain where it stands.  When the transfers before it go through,
    the balance operation returns the error that quotes the malformed
    amount; the transfers before it were received, in order, and stay
    received; no block is constructed for the malformed transfer or for
    any transfer after it; and no balance is printed. *)
Theorem X15_malformed_amount_stops_the_drain
        (env : Env) (cl : CommandLine) (key : PrivateKey) (account : Account.t)
        (state : AccountInfo.t + error)
        (before after : list Pending.t) (bad : Pending.t) (amounts : list Z) :
  derives env cl key account ->
  (forall h, node_account_info env h account = state) ->
  (state = inr ErrAccountNotFound \/
   exists info balance,
     state = inl info /\
     big.SetString10 (AccountInfo.Balance info) = Some balance) ->
  (forall h, node_pending env h account = inl (before ++ bad :: after)) ->
  amounts_of before amounts ->
  big.SetString10 (Pending.Amount bad) = None ->
  signs env key -> works env -> accepts env ->
  exists tr,
    printBalance env cl []
    = (Ret (Some (Err ("cannot parse '" ++ Pending.Amount bad
                       ++ "' as an integer")%string)), tr) /\
    claims (submitted tr) before /\
    submit_calls tr = submitted tr /\
    constructed tr = map Block.bare (submitted tr) /\
    List.length (constructor_calls tr) = List.length before /\
    stdout_writes tr = [].
Proof.
  intros (seed & Hseed & Hkey & Hacct) Hinfo Hstate Hpend Hamounts Hbad
         Hsign Hwork Hsubmit.
  unfold printBalance, drainPending. run.
  rewrite Hseed, Hkey, Hacct, Hinfo. run.
  destruct Hstate as [->|(info & balance & -> & Hbal)]; run;
    rewrite Hpend; run.
  - match goal with
    | |- context [receivePendings _ _ _ _ _ ?i ?t] =>
        destruct (receivePendings_unopened env account key Hsign Hwork Hsubmit
                    before amounts Hamounts i t eq_refl) as
          (info' & evs & Hrun & Hb & Hcl & Hk & Hch & Hsc & Hco & Hout)
    end.
    destruct (receivePendings_success _ _ _ _ _ _ _ _ _ Hrun)
      as (evs' & Heq & Hcalls).
    pose proof (drained_constructor_calls _ _ _ _ Heq Hcalls Hco Hcl) as Hlen.
    rewrite (receivePendings_app _ _ _ _ _ _ _ _ _ _ Hrun).
    cbn [receivePendings]. rewrite Hbad. run.
    eexists. split; [reflexivity|].
    unfold stdout_writes, submitted, submit_calls, constructed,
      constructor_calls in *.
    rewrite !pick_app, Hout, Hsc, Hco. cbn [pick app].
    repeat split; auto.
  - match goal with
    | |- context [receivePendings _ _ _ _ _ ?i ?t] =>
        destruct (receivePendings_opened env account key Hsign Hwork Hsubmit
                    before amounts Hamounts i balance t Hbal) as
          (info' & evs & Hrun & Hb & Hcl & Hk & Hch & Hsc & Hco & Hout)
    end.
    destruct (receivePendings_success _ _ _ _ _ _ _ _ _ Hrun)
      as (evs' & Heq & Hcalls).
    pose proof (drained_constructor_calls _ _ _ _ Heq Hcalls Hco Hcl) as Hlen.
    rewrite (receivePendings_app _ _ _ _ _ _ _ _ _ _ Hrun).
    cbn [receivePendings]. rewrite Hbad. run.
    eexists. split; [reflexivity|].
    unfold stdout_writes, submitted, submit_calls, constructed,
      constructor_calls in *.
    rewrite !pick_app, Hout, Hsc, Hco. cbn [pick app].
    repeat split; auto.
Qed.

Lemma X15_malformed_amount_stops_the_drain_witness :
  exists tr,
    printBalance
      (stub (inr ErrAccountNotFound)
            [X_transfer; Pending.mk "12x" "Z" "hz"; Y_transfer] None "y")
      balance_line []
    = (Ret (Some (Err "cannot parse '12x' as an integer")), tr) /\
    claims (submitted tr) [X_transfer] /\
    submit_calls tr = submitted tr /\
    constructed tr = map Block.bare (submitted tr) /\
    List.length (constructor_calls tr) = 1%nat /\
    stdout_writes tr = [].
Proof.
  apply (X15_malformed_amount_stops_the_drain
           (stub (inr ErrAccountNotFound)
                 [X_transfer; Pending.mk "12x" "Z" "hz"; Y_transfer] None "y")
           balance_line 1 (Account.mk 1 "nano_me")
           (inr ErrAccountNotFound)
           [X_transfer] [Y_transfer] (Pending.mk "12x" "Z" "hz")
           [1025000000000000000000000000]).
  - apply (stub_derives _ _ _ _ 0).
  - reflexivity.
  - left. reflexivity.
  - reflexivity.
  - repeat constructor.
  - reflexivity.
  - apply stub_signs.
  - apply stub_works.
  - apply stub_accepts.
Defined.
